(** * export-conversation.py: a shallow embedding and its properties

    The script reads a JSONL transcript, extracts the text of every
    message, infers a title and tags, renders a Markdown document and
    maintains an index file.  This development embeds the functions of
    [scripts/export-conversation.py] as Rocq functions and states the
    properties of the specification against them.

    Modelling conventions.
    - A Python [str] is a Rocq [string]; a character is a code point
      below 256 (Latin-1), which fixes [str.lower] and [str.strip].
    - A decoded JSON value is a [json]; a Python [dict] is an association
      list in insertion order with unique keys.
    - A Python exception is a value of [exn]; code that may raise returns
      a [result].
    - Mutation of a message dictionary by [dict.pop] is explicit state
      passing: an operation on messages returns the messages as it
      leaves them.
    - The file system is a finite map from path strings to the texts of
      the regular files.  A file is known by one path string (no links,
      no second spelling of a path), and directories are not tracked.
      The paths the script builds with [pathlib] are built here as
      [pathlib] builds them ([PurePath], [Path], [truediv]), the paths it
      builds as f-strings by concatenation.
    - The operating system raises no error: where the checks of the
      script let it reach a [mkdir], an [open], a read or a write, the
      operation succeeds.  A statement about what a call leaves in the
      files is a statement about a call that returns.
    - [json.loads], [json.dumps] and [repr] on containers and floats are
      library functions of Python, taken as an interface ([PyLib]). *)

From Stdlib Require Import ZArith List String Ascii Lia Bool DecimalString.
From stdpp Require Import base option gmap strings list.

Local Open Scope string_scope.
Local Open Scope list_scope.

(** ** Python string primitives *)

Definition LF : ascii := "010"%char.
Definition CR : ascii := "013"%char.
Definition nl : string := String LF "".

(** [str.isspace] on one character, for code points below 256. *)
Definition isspace (c : ascii) : bool :=
  let n := nat_of_ascii c in
  ((9 <=? n) && (n <=? 13) || (28 <=? n) && (n <=? 32)
   || (n =? 133) || (n =? 160))%nat.

(** [str.lower] on one character, for code points below 256. *)
Definition lower_char (c : ascii) : ascii :=
  let n := nat_of_ascii c in
  if ((65 <=? n) && (n <=? 90)
      || (192 <=? n) && (n <=? 222) && negb (n =? 215))%nat
  then ascii_of_nat (n + 32) else c.

Fixpoint lower (s : string) : string :=
  match s with
  | "" => ""
  | String c r => String (lower_char c) (lower r)
  end.

Fixpoint lstrip (s : string) : string :=
  match s with
  | "" => ""
  | String c r => if isspace c then lstrip r else s
  end.

Fixpoint rstrip (s : string) : string :=
  match s with
  | "" => ""
  | String c r =>
      match rstrip r with
      | "" => if isspace c then "" else String c ""
      | r' => String c r'
      end
  end.

(** [s.strip()] *)
Definition strip (s : string) : string := rstrip (lstrip s).

(** [s.startswith(p)] *)
Definition startswith (s p : string) : bool := String.prefix p s.

(** [needle in hay] on strings: contiguous substring. *)
Fixpoint contains (needle hay : string) : bool :=
  String.prefix needle hay
  || match hay with
     | "" => false
     | String _ r => contains needle r
     end.

(** [s[a:b]] for non-negative bounds. *)
Definition slice (a b : nat) (s : string) : string := substring a (b - a) s.

(** [s.split('\n')[0]] *)
Fixpoint split_nl_first (s : string) : string :=
  match s with
  | "" => ""
  | String c r => if Ascii.eqb c LF then "" else String c (split_nl_first r)
  end.

(** [sep.join(l)] *)
Definition join (sep : string) (l : list string) : string := String.concat sep l.

(** [not s] / [if s] on strings. *)
Definition is_empty (s : string) : bool :=
  match s with "" => true | _ => false end.

(** [str(n)] for an integer. *)
Definition str_of_Z (n : Z) : string := NilZero.string_of_int (Z.to_int n).
Definition str_of_nat (n : nat) : string := NilZero.string_of_uint (Nat.to_uint n).

(** Text-mode reading translates every line ending to a line feed: a
    carriage return becomes a line feed, and a line feed that directly
    follows a carriage return is dropped.  [after_cr] tells that the
    character before [s] was a carriage return. *)
Fixpoint translate_newlines (after_cr : bool) (s : string) : string :=
  match s with
  | "" => ""
  | String c r =>
      if Ascii.eqb c CR then String LF (translate_newlines true r)
      else if Ascii.eqb c LF then
        if after_cr then translate_newlines false r
        else String LF (translate_newlines false r)
      else String c (translate_newlines false r)
  end.

(** [f.read()] in text mode. *)
Definition universal_newlines (s : string) : string := translate_newlines false s.

(** Lines of a text, each keeping its line feed. *)
Fixpoint keepends (s : string) : list string :=
  match s with
  | "" => []
  | String c r =>
      if Ascii.eqb c LF then nl :: keepends r
      else match keepends r with
           | [] => [String c ""]
           | l :: ls => String c l :: ls
           end
  end.

(** [f.readlines()], and the lines of [for line in f]. *)
Definition readlines (content : string) : list string :=
  keepends (universal_newlines content).

(** [f.writelines(lines)] *)
Definition writelines (lines : list string) : string := String.concat "" lines.

(** ** Paths: [pathlib] on a POSIX system *)

(** The separator of path components. *)
Definition is_sep (c : ascii) : bool := Ascii.eqb c "/".

(** [s.split('/')] *)
Fixpoint split_slash (s : string) : list string :=
  match s with
  | "" => [""]
  | String c r =>
      if is_sep c then "" :: split_slash r
      else match split_slash r with
           | x :: xs => String c x :: xs
           | [] => [String c ""]
           end
  end.

(** [posixpath.splitroot]: the root is [//] for exactly two leading
    slashes, [/] for one or for three and more, and empty otherwise. *)
Definition splitroot (p : string) : string * string :=
  match p with
  | String c1 r1 =>
      if is_sep c1 then
        match r1 with
        | String c2 r2 =>
            if is_sep c2 then
              match r2 with
              | String c3 _ => if is_sep c3 then ("/", r1) else ("//", r2)
              | "" => ("//", r2)
              end
            else ("/", r1)
        | "" => ("/", r1)
        end
      else ("", p)
  | "" => ("", p)
  end.

(** A [pathlib] path: its root and its components. *)
Record PurePath : Type := {
  path_root : string;
  path_parts : list string
}.

(** A component [pathlib] keeps: not empty and not a single dot. *)
Definition kept_part (x : string) : bool :=
  negb (is_empty x) && negb (String.eqb x ".").

(** [Path(s)]: empty components and single dots are dropped. *)
Definition Path (s : string) : PurePath :=
  let '(root, rel) := splitroot s in
  {| path_root := root; path_parts := List.filter kept_part (split_slash rel) |}.

(** [p / key]: a key with a root replaces the path. *)
Definition truediv (p : PurePath) (key : string) : PurePath :=
  let q := Path key in
  if is_empty (path_root q)
  then {| path_root := path_root p; path_parts := path_parts p ++ path_parts q |}
  else q.

(** [str(p)], the text handed to [open]. *)
Definition str_of_path (p : PurePath) : string :=
  match path_parts p with
  | [] => if is_empty (path_root p) then "." else path_root p
  | parts => path_root p +:+ join "/" parts
  end.

(** ** Exceptions and results *)

Inductive exn : Type :=
| JSONDecodeError
| FileNotFoundError
| AttributeError
| TypeError
| OtherException (name : string).

Inductive result (A : Type) : Type :=
| Ok (a : A)
| Raise (e : exn).
Arguments Ok {A} a.
Arguments Raise {A} e.

(** Sequencing: an exception ends the computation. *)
#[global] Instance result_ret : MRet result := fun _ a => Ok a.
#[global] Instance result_bind : MBind result := fun _ _ k r =>
  match r with
  | Ok a => k a
  | Raise e => Raise e
  end.

(** ** JSON values *)

(** A Python float: not a number, an infinity, or [(-1)^neg * m * 2^e]. *)
Inductive pyfloat : Type :=
| FNan
| FInf (neg : bool)
| FFin (neg : bool) (m : N) (e : Z).

#[warnings="-register-all"]
Inductive json : Type :=
| JNull
| JBool (b : bool)
| JInt (n : Z)
| JFloat (f : pyfloat)
| JStr (s : string)
| JList (l : list json)
| JDict (d : list (string * json)).

(** A Python dictionary with string keys: bindings in insertion order. *)
Definition dict : Type := list (string * json).

(** [d.get(k)] as an option; [None] when the key is absent. *)
Fixpoint dict_get (k : string) (d : dict) : option json :=
  match d with
  | [] => None
  | (k', v) :: r => if String.eqb k k' then Some v else dict_get k r
  end.

(** [d.get(k, dflt)] *)
Definition get_or (k : string) (dflt : json) (d : dict) : json :=
  default dflt (dict_get k d).

(** [d.get(k)]: Python's [None] when the key is absent. *)
Definition get (k : string) (d : dict) : json := get_or k JNull d.

(** The dictionary after [del d[k]] (or after [d.pop(k, ...)]). *)
Fixpoint dict_remove (k : string) (d : dict) : dict :=
  match d with
  | [] => []
  | (k', v) :: r =>
      if String.eqb k k' then dict_remove k r else (k', v) :: dict_remove k r
  end.

(** [d[k] = v]: the value is replaced in place, a new key goes last. *)
Fixpoint dict_set (k : string) (v : json) (d : dict) : dict :=
  match d with
  | [] => [(k, v)]
  | (k', v') :: r =>
      if String.eqb k k' then (k', v) :: r else (k', v') :: dict_set k v r
  end.

(** [v == s] for a string literal [s]. *)
Definition is_str (v : json) (s : string) : bool :=
  match v with
  | JStr s' => String.eqb s' s
  | _ => false
  end.

(** The library functions of Python the script calls on JSON values. *)
Class PyLib : Type := {
  (** [json.loads(text)] *)
  json_loads : string -> result json;
  (** [json.dumps(v, indent=indent, ensure_ascii=ensure_ascii)] *)
  json_dumps : option nat -> bool -> json -> string;
  (** [repr(v)] of a float, a list or a dictionary *)
  py_repr : json -> string
}.

(** The file system: the text of every regular file. *)
Abbreviation filesystem := (gmap string string).

(** The [metadata] dictionary, with values of the types [main] gives
    them: strings, a number, a list of strings.  A field is [None] when
    the key is absent, and [metadata.get(k, d)] then supplies its default.
    [md_cwd] is [None] also when the key is bound to [None], as [main]
    binds it when [--cwd] is not given: [to_markdown], the one reader of
    that key, tests its truth value only, which is that of the empty
    string.  Another key bound to [None] is outside this record. *)
Record metadata : Type := {
  md_session_id : option string;
  md_date : option string;
  md_message_count : option nat;
  md_cwd : option string;
  md_title : option string;
  md_tags : option (list string)
}.

(** The options given on the command line. *)
Record cli_args : Type := {
  arg_session_id : option string;
  arg_transcript : option string;
  arg_output : option string;
  arg_cwd : option string
}.

(** What one run of the script is started with: the command line, whether
    standard input is a terminal, what [json.load(sys.stdin)] gives (an
    object with string values, or an exception), and the date
    [datetime.now().strftime('%Y-%m-%d')] gives. *)
Record invocation : Type := {
  argv : cli_args;
  stdin_isatty : bool;
  stdin_json : result (gmap string string);
  today : string
}.

(** How [main] ends: a [return], [sys.exit] inside [argparse], or an
    exception nobody catches. *)
Inductive outcome : Type :=
| Return (code : Z)
| SysExit (code : Z)
| Uncaught (e : exn).

(** ** Log Reader: [parse_transcript] *)

Section Program.
Context `{PyLib}.

(** One iteration of the loop over the lines of the file, from
    [line = line.strip()] on.  [JSONDecodeError] is handled inside the
    loop; every other exception leaves the loop. *)
Definition parse_line (messages : list dict) (line : string)
  : result (list dict) :=
  let line := strip line in
  if is_empty line then Ok messages
  else
    match json_loads line with
    | Raise JSONDecodeError => Ok messages
    | Raise e => Raise e
    | Ok data =>
        match data with
        | JDict data =>
            let msg_type := get "type" data in
            if is_str msg_type "user" || is_str msg_type "assistant" then
              match dict_get "message" data with
              | Some (JDict msg_data) =>
                  Ok (messages ++ [dict_set "_msg_type" msg_type msg_data])
              | Some _ => Raise TypeError
              | None => Ok messages
              end
            else if is_str msg_type "tool_use" || is_str msg_type "tool_result"
            then Ok (messages ++ [data])
            else Ok messages
        | _ => Raise AttributeError
        end
    end.

(** The loop [for line in f]. *)
Fixpoint parse_lines (messages : list dict) (lines : list string)
  : result (list dict) :=
  match lines with
  | [] => Ok messages
  | line :: rest =>
      messages' ← parse_line messages line;
      parse_lines messages' rest
  end.

(** The body of the outer [try]: open the file, run the loop. *)
Definition read_transcript (fs : filesystem) (transcript_path : string)
  : result (list dict) :=
  match fs !! transcript_path with
  | None => Raise FileNotFoundError
  | Some content => parse_lines [] (readlines content)
  end.

(** [parse_transcript]: both handlers of the outer [try] return [[]]. *)
Definition parse_transcript (fs : filesystem) (transcript_path : string)
  : list dict :=
  match read_transcript fs transcript_path with
  | Ok messages => messages
  | Raise FileNotFoundError => []
  | Raise _ => []
  end.

(** ** Content Extractor: [extract_content] *)

(** [str(v)], which is also what an f-string puts for [{v}]. *)
Definition py_str (v : json) : string :=
  match v with
  | JStr s => s
  | JNull => "None"
  | JBool true => "True"
  | JBool false => "False"
  | JInt n => str_of_Z n
  | _ => py_repr v
  end.

(** The strings of [texts]; [str.join] raises [TypeError] on any other item. *)
Fixpoint all_str (texts : list json) : result (list string) :=
  match texts with
  | [] => Ok []
  | JStr s :: rest => l ← all_str rest; mret (s :: l)
  | _ :: _ => Raise TypeError
  end.

(** ['\n'.join(texts).strip()] *)
Definition join_texts (texts : list json) : result string :=
  l ← all_str texts; mret (strip (join nl l)).

(** The sub-blocks of a tool result nested in a user message: the text of
    every dictionary item of type [text]. *)
Fixpoint text_items (items : list json) : list json :=
  match items with
  | [] => []
  | JDict item :: rest =>
      if is_str (get "type" item) "text"
      then get_or "text" (JStr "") item :: text_items rest
      else text_items rest
  | _ :: rest => text_items rest
  end.

(** One block of a user message's content list. *)
Definition user_block (texts : list json) (block : json) : result (list json) :=
  match block with
  | JDict block =>
      if is_str (get "type" block) "text" then
        Ok (texts ++ [get_or "text" (JStr "") block])
      else if is_str (get "type" block) "image" then
        match get_or "source" (JDict []) block with
        | JDict source =>
            Ok (texts ++ [JStr ("[Image: "
                  +:+ py_str (get_or "media_type" (JStr "unknown") source)
                  +:+ "]")])
        | _ => Raise AttributeError
        end
      else if is_str (get "type" block) "tool_result" then
        let tool_name := get_or "tool_use_id" (JStr "unknown") block in
        let texts := texts ++ [JStr ("[Tool Result: " +:+ py_str tool_name +:+ "]")] in
        match dict_get "content" block with
        | Some (JStr result_content) => Ok (texts ++ [JStr result_content])
        | Some (JList result_content) => Ok (texts ++ text_items result_content)
        | _ => Ok texts
        end
      else Ok texts
  | JStr block => Ok (texts ++ [JStr block])
  | _ => Ok texts
  end.

(** The rendering of a tool input, when it is a non-empty dictionary. *)
Definition input_block (input_data : json) : option string :=
  match input_data with
  | JDict (_ :: _) =>
      Some ("```json" +:+ nl +:+ json_dumps (Some 2) false input_data
            +:+ nl +:+ "```" +:+ nl)
  | _ => None
  end.

(** One block of an assistant message's content list. *)
Definition assistant_block (texts : list json) (block : json)
  : result (list json) :=
  match block with
  | JDict block =>
      if is_str (get "type" block) "text" then
        Ok (texts ++ [get_or "text" (JStr "") block])
      else if is_str (get "type" block) "tool_use" then
        let tool_name := get_or "name" (JStr "unknown") block in
        let texts := texts ++ [JStr (nl +:+ "**Tool Use**: `" +:+ py_str tool_name
                                      +:+ "`" +:+ nl)] in
        match dict_get "input" block with
        | Some input_data =>
            match input_block input_data with
            | Some rendered => Ok (texts ++ [JStr rendered])
            | None => Ok texts
            end
        | None => Ok texts
        end
      else Ok texts
  | JStr block => Ok (texts ++ [JStr block])
  | _ => Ok texts
  end.

(** The loop [for block in content] of either branch. *)
Fixpoint blocks_loop (step : list json -> json -> result (list json))
    (texts : list json) (content : list json) : result (list json) :=
  match content with
  | [] => Ok texts
  | block :: rest => texts' ← step texts block; blocks_loop step texts' rest
  end.

(** The loop over the items of a standalone tool result: every text item
    is appended inside its own fence. *)
Fixpoint tool_result_items (result : string) (content : list json) : string :=
  match content with
  | [] => result
  | JDict item :: rest =>
      if is_str (get "type" item) "text"
      then tool_result_items
             (result +:+ "```" +:+ nl +:+ py_str (get_or "text" (JStr "") item)
                     +:+ nl +:+ "```" +:+ nl) rest
      else tool_result_items result rest
  | _ :: rest => tool_result_items result rest
  end.

(** The dispatch of [extract_content] once [msg_type] has been taken. *)
Definition extract_dispatch (msg_type : json) (message : dict)
  : result (option string) :=
  if is_str msg_type "user" || is_str (get "role" message) "user" then
    match get_or "content" (JStr "") message with
    | JList content =>
        texts ← blocks_loop user_block [] content;
        text ← join_texts texts;
        mret (Some text)
    | content => Ok (Some (py_str content))
    end
  else if is_str msg_type "assistant" || is_str (get "role" message) "assistant" then
    match get_or "content" (JList []) message with
    | JList content =>
        texts ← blocks_loop assistant_block [] content;
        text ← join_texts texts;
        mret (Some text)
    | content => Ok (Some (py_str content))
    end
  else if is_str (get "type" message) "tool_use" then
    let tool_name := get_or "name" (JStr "unknown") message in
    let result := "**Tool Use**: `" +:+ py_str tool_name +:+ "`" +:+ nl in
    match dict_get "input" message with
    | Some input_data =>
        match input_block input_data with
        | Some rendered => Ok (Some (result +:+ rendered))
        | None => Ok (Some result)
        end
    | None => Ok (Some result)
    end
  else if is_str (get "type" message) "tool_result" then
    let tool_use_id := get_or "tool_use_id" (JStr "unknown") message in
    let result := "**Tool Result**: `" +:+ py_str tool_use_id +:+ "`" +:+ nl in
    match dict_get "content" message with
    | Some (JStr content) =>
        Ok (Some (result +:+ "```" +:+ nl +:+ content +:+ nl +:+ "```" +:+ nl))
    | Some (JList content) => Ok (Some (tool_result_items result content))
    | _ => Ok (Some result)
    end
  else Ok None.

(** [extract_content]: the first statement pops [_msg_type] from the
    message, so the function returns the message as it leaves it, next
    to its result. *)
Definition extract_content (message : dict) : result (option string) * dict :=
  let msg_type :=
    default (get_or "role" (JStr "") message) (dict_get "_msg_type" message) in
  let message := dict_remove "_msg_type" message in
  (extract_dispatch msg_type message, message).

(** ** Metadata Inferencer: [generate_title] and [extract_tags] *)

Definition skip_prefixes : list string :=
  ["[Tool Result:"; "[Tool Use:"; "[Request interrupted"; "[Image:"].

(** The body of [if content:] in [generate_title]: the title this content
    gives, or [None] where the loop goes on to the next message. *)
Definition title_of_content (content : option string) : option string :=
  match content with
  | None => None
  | Some content =>
      if is_empty content then None
      else
        let content := strip content in
        if existsb (startswith content) skip_prefixes then None
        else if (String.length content <? 20)%nat then None
        else
          let first_line := strip (split_nl_first content) in
          if (50 <? String.length first_line)%nat
          then Some (slice 0 47 first_line +:+ "...")
          else if is_empty first_line then None
          else Some first_line
  end.

(** The loop of [generate_title]: the title found, if any, and the
    messages as the loop leaves them. *)
Fixpoint title_loop (messages : list dict)
  : result (option string) * list dict :=
  match messages with
  | [] => (Ok None, [])
  | msg :: rest =>
      if is_str (get "role" msg) "user" then
        let '(content, msg') := extract_content msg in
        match content with
        | Raise e => (Raise e, msg' :: rest)
        | Ok content =>
            match title_of_content content with
            | Some title => (Ok (Some title), msg' :: rest)
            | None =>
                let '(r, rest') := title_loop rest in (r, msg' :: rest')
            end
        end
      else
        let '(r, rest') := title_loop rest in (r, msg :: rest')
  end.

Definition generate_title (messages : list dict) (session_id : string)
  : result string * list dict :=
  let '(r, messages') := title_loop messages in
  (found ← r;
   mret (default ("Conversation " +:+ slice 0 8 session_id) found),
   messages').

(** The first loop of [extract_tags]. *)
Fixpoint collect_text (all_text : string) (messages : list dict)
  : result string * list dict :=
  match messages with
  | [] => (Ok all_text, [])
  | msg :: rest =>
      let '(content, msg') := extract_content msg in
      match content with
      | Raise e => (Raise e, msg' :: rest)
      | Ok content =>
          let all_text :=
            match content with
            | Some content =>
                if is_empty content then all_text
                else all_text +:+ lower content +:+ " "
            | None => all_text
            end in
          let '(r, rest') := collect_text all_text rest in (r, msg' :: rest')
      end
  end.

(** The keyword table, in the order of the dictionary literal. *)
Definition keywords : list (string * string) :=
  [ ("bug", "bug-fix");
    ("fix", "bug-fix");
    ("feature", "feature-development");
    ("implement", "feature-development");
    ("refactor", "refactoring");
    ("test", "testing");
    ("review", "code-review");
    ("deploy", "deployment");
    ("debug", "debugging");
    ("api", "api");
    ("documentation", "documentation");
    ("help", "help");
    ("explain", "explanation") ].

(** [tag in tags] *)
Definition mem (tag : string) (tags : list string) : bool :=
  existsb (String.eqb tag) tags.

(** The loop [for keyword, tag in keywords.items()]. *)
Fixpoint scan_keywords (table : list (string * string)) (all_text : string)
    (tags : list string) : list string :=
  match table with
  | [] => tags
  | (keyword, tag) :: rest =>
      if contains keyword all_text && negb (mem tag tags)
      then scan_keywords rest all_text (tags ++ [tag])
      else scan_keywords rest all_text tags
  end.

(** The tags of a text: the scan of the table, then [tags[:5]]. *)
Definition tags_of_text (all_text : string) : list string :=
  firstn 5 (scan_keywords keywords all_text []).

Definition extract_tags (messages : list dict)
  : result (list string) * list dict :=
  let '(r, messages') := collect_text "" messages in
  (all_text ← r; mret (tags_of_text all_text), messages').

(** ** Document Renderer: [to_markdown] *)

Definition dquote : string := String "034"%char "".

(** Python truth value of a JSON value. *)
Definition truthy (v : json) : bool :=
  match v with
  | JNull => false
  | JBool b => b
  | JInt n => negb (n =? 0)%Z
  | JFloat (FFin _ m _) => negb (m =? 0)%N
  | JFloat _ => true
  | JStr s => negb (is_empty s)
  | JList l => match l with [] => false | _ => true end
  | JDict d => match d with [] => false | _ => true end
  end.

(** The heading of a role, [None] where the loop says [continue]. *)
Definition heading_of (role_value : json) : option string :=
  if is_str role_value "user" then Some "## User"
  else if is_str role_value "assistant" then Some "## Claude"
  else if is_str role_value "tool_use" then Some "## Tool Use"
  else if is_str role_value "tool_result" then Some "## Tool Result"
  else None.

(** The loop of [to_markdown] over the messages, on the loop variables
    [current_role], [current_content] and [output]. *)
Fixpoint render_loop (messages : list dict) (current_role : option string)
    (current_content output : list string)
  : result (list string * list string) * list dict :=
  match messages with
  | [] => (Ok (current_content, output), [])
  | msg :: rest =>
      let role_value :=
        if truthy (get "role" msg) then get "role" msg else get "type" msg in
      match heading_of role_value with
      | None =>
          let '(r, rest') := render_loop rest current_role current_content output in
          (r, msg :: rest')
      | Some role =>
          let '(content, msg') := extract_content msg in
          match content with
          | Raise e => (Raise e, msg' :: rest)
          | Ok content =>
              match content with
              | Some (String c text) =>
                  let content := String c text in
                  let changed :=
                    match current_role with
                    | Some r => negb (String.eqb r role)
                    | None => false
                    end in
                  let output :=
                    if changed then
                      match current_content with
                      | [] => output
                      | _ => output ++ [join nl current_content; ""; "---"; ""]
                      end
                    else output in
                  let current_content :=
                    if changed then [] else current_content in
                  let current_content :=
                    match current_content with
                    | [] => [role; ""]
                    | _ => current_content
                    end in
                  let '(r, rest') :=
                    render_loop rest (Some role) (current_content ++ [content])
                      output in
                  (r, msg' :: rest')
              | _ =>
                  let '(r, rest') :=
                    render_loop rest current_role current_content output in
                  (r, msg' :: rest')
              end
          end
      end
  end.

Definition to_markdown (now : string) (messages : list dict) (md : metadata)
  : result string * list dict :=
  let title := default "Untitled Conversation" (md_title md) in
  let date := default now (md_date md) in
  let tags := default [] (md_tags md) in
  let session_id := default "unknown" (md_session_id md) in
  let cwd := default "" (md_cwd md) in
  let frontmatter :=
    [ "---";
      "title: " +:+ dquote +:+ title +:+ dquote;
      "date: " +:+ date;
      "tags: " +:+ json_dumps None true (JList (JStr <$> tags));
      "session_id: " +:+ session_id ]
    ++ (if is_empty cwd then [] else ["project: " +:+ cwd])
    ++ ["---"] in
  let output :=
    [ join nl frontmatter;
      "";
      "# " +:+ title;
      "";
      "**Session ID**: `" +:+ session_id +:+ "`";
      "**Date**: " +:+ date;
      "**Messages**: "
        +:+ str_of_nat (default (length messages) (md_message_count md)) ]
    ++ (match tags with [] => [] | _ => ["**Tags**: " +:+ join ", " tags] end)
    ++ [""; "---"; ""] in
  let '(r, messages') := render_loop messages None [] output in
  ('(current_content, output) ← r;
   mret (join nl (match current_content with
                  | [] => output
                  | _ => output ++ [join nl current_content]
                  end)),
   messages').

(** ** Index Updater: [update_index] *)

Definition index_header : list string :=
  [ "# Conversation Index" +:+ nl;
    nl;
    "This index contains all exported Claude Code conversations." +:+ nl;
    nl;
    "## Conversations" +:+ nl;
    nl ].

(** [year/month-day/session_id.md] from the slices of [date]. *)
Definition rel_path (date session_id : string) : string :=
  slice 0 4 date +:+ "/" +:+ slice 5 7 date +:+ "-" +:+ slice 8 10 date
  +:+ "/" +:+ session_id +:+ ".md".

Definition index_entry (now session_id : string) (md : metadata) : string :=
  let date := default now (md_date md) in
  let title := default "Untitled" (md_title md) in
  let tags := default [] (md_tags md) in
  let entry :=
    "- [" +:+ date +:+ "] [" +:+ title +:+ "](" +:+ rel_path date session_id +:+ ")" in
  let entry :=
    match tags with
    | [] => entry
    | _ => entry +:+ " - " +:+ join ", " tags
    end in
  entry +:+ nl.

(** The index of the first line that contains the section marker. *)
Fixpoint find_marker (i : nat) (index_content : list string) : option nat :=
  match index_content with
  | [] => None
  | line :: rest =>
      if contains "## Conversations" line then Some i
      else find_marker (S i) rest
  end.

Definition insert_pos (index_content : list string) : nat :=
  match find_marker 0 index_content with
  | Some i => i + 2
  | None => length index_content
  end.

(** [l.insert(pos, x)]: a position past the end appends. *)
Definition list_insert_at {A : Type} (pos : nat) (x : A) (l : list A) : list A :=
  firstn pos l ++ x :: skipn pos l.

(** The lines [update_index] writes, from the lines it loaded. *)
Definition insert_entry (index_content : list string) (entry : string)
  : list string :=
  list_insert_at (insert_pos index_content) entry index_content.

(** [output_dir / 'index.md'], as [open] receives it. *)
Definition index_path (output_dir : PurePath) : string :=
  str_of_path (truediv output_dir "index.md").

(** [update_index], for a call that returns: the index is read when it
    exists, and written back with the entry. *)
Definition update_index (fs : filesystem) (now : string) (output_dir : PurePath)
    (session_id : string) (md : metadata) : filesystem :=
  let index_path := index_path output_dir in
  let index_content :=
    match fs !! index_path with
    | None => index_header
    | Some content => readlines content
    end in
  let entry := index_entry now session_id md in
  <[index_path := writelines (insert_entry index_content entry)]> fs.

(** [output_path / year / f"{month}-{day}"] from the slices of [date]. *)
Definition date_dir (output_path : PurePath) (date : string) : PurePath :=
  let year := slice 0 4 date in
  let month := slice 5 7 date in
  let day := slice 8 10 date in
  truediv (truediv output_path year) (month +:+ "-" +:+ day).

(** [date_dir / f"{session_id}.md"], as [open] receives it. *)
Definition filepath (output_path : PurePath) (date session_id : string) : string :=
  str_of_path (truediv (date_dir output_path date) (session_id +:+ ".md")).

(** [save_conversation], for a call that returns: the document is
    written, then the index is updated. *)
Definition save_conversation (fs : filesystem) (now markdown output_dir
    session_id : string) (md : metadata) : filesystem :=
  let output_path := Path output_dir in
  let date := default now (md_date md) in
  let fs := <[filepath output_path date session_id := markdown]> fs in
  update_index fs now output_path session_id md.

(** ** [main] *)

(** The export steps both modes run once they hold a non-empty list of
    messages: metadata, title, tags, rendering, saving.  The exceptions
    are those of content extraction; saving is that of a call that
    returns. *)
Definition export (fs : filesystem) (now : string) (messages : list dict)
    (session_id output_dir : string) (cwd : option string)
  : result filesystem :=
  let message_count := length messages in
  let '(title, messages) := generate_title messages session_id in
  title ← title;
  let '(tags, messages) := extract_tags messages in
  tags ← tags;
  let md :=
    {| md_session_id := Some session_id;
       md_date := Some now;
       md_message_count := Some message_count;
       md_cwd := cwd;
       md_title := Some title;
       md_tags := Some tags |} in
  let '(markdown, _) := to_markdown now messages md in
  markdown ← markdown;
  mret (save_conversation fs now markdown output_dir session_id md).

(** [session_id in f.read()] on the marker file, when it exists. *)
Definition already_exported (fs : filesystem) (state_file session_id : string)
  : bool :=
  match fs !! state_file with
  | Some content => contains session_id (universal_newlines content)
  | None => false
  end.

(** [open(state_file, 'a')] then [f.write(session_id + '\n')]. *)
Definition record_exported (fs : filesystem) (state_file session_id : string)
  : filesystem :=
  <[state_file := default "" (fs !! state_file) +:+ session_id +:+ nl]> fs.

(** Hook mode: the payload comes on standard input. *)
Definition main_hook (inv : invocation) (fs : filesystem)
  : outcome * filesystem :=
  match stdin_json inv with
  | Raise JSONDecodeError => (Return 1, fs)
  | Raise e => (Uncaught e, fs)
  | Ok hook_data =>
      let session_id := default "" (hook_data !! "session_id") in
      let transcript_path := default "" (hook_data !! "transcript_path") in
      let cwd := default "" (hook_data !! "cwd") in
      if is_empty session_id || is_empty cwd then (Return 1, fs)
      else
        let output_dir := cwd +:+ "/.claude/history" in
        let state_file := output_dir +:+ "/.exported_state" in
        if already_exported fs state_file session_id then (Return 0, fs)
        else
          let exported :=
            if negb (is_empty transcript_path)
               && bool_decide (is_Some (fs !! transcript_path))
            then
              match parse_transcript fs transcript_path with
              | [] => Ok fs
              | messages =>
                  export fs (today inv) messages session_id output_dir (Some cwd)
              end
            else Ok fs in
          match exported with
          | Raise e => (Uncaught e, fs)
          | Ok fs => (Return 0, record_exported fs state_file session_id)
          end
  end.

(** [parser.parse_args()]: a required option that is missing ends the
    process with status 2. *)
Definition parse_args (args : cli_args)
  : string * string * string * option string + Z :=
  match arg_session_id args, arg_transcript args, arg_output args with
  | Some session_id, Some transcript, Some output =>
      inl (session_id, transcript, output, arg_cwd args)
  | _, _, _ => inr 2%Z
  end.

(** Command-line mode. *)
Definition main_cli (inv : invocation) (fs : filesystem)
  : outcome * filesystem :=
  match parse_args (argv inv) with
  | inr status => (SysExit status, fs)
  | inl (session_id, transcript, output, cwd) =>
      match parse_transcript fs transcript with
      | [] => (Return 1, fs)
      | messages =>
          match export fs (today inv) messages session_id output cwd with
          | Raise e => (Uncaught e, fs)
          | Ok fs => (Return 0, fs)
          end
      end
  end.

(** [len(sys.argv) == 1]: no option was given. *)
Definition no_arguments (args : cli_args) : bool :=
  match arg_session_id args, arg_transcript args, arg_output args, arg_cwd args with
  | None, None, None, None => true
  | _, _, _, _ => false
  end.

Definition main (inv : invocation) (fs : filesystem) : outcome * filesystem :=
  if no_arguments (argv inv) && negb (stdin_isatty inv)
  then main_hook inv fs
  else main_cli inv fs.

End Program.

(** ** Sample data for the closed examples

    A library instance whose decoder knows the sample lines below, each
    paired with the value [json.loads] gives for it; any other text is a
    decode error.  The examples do not exercise the serialisers. *)

Module Samples.

Definition q (s : string) : string := dquote +:+ s +:+ dquote.

(** The text of an object whose values are already rendered. *)
Definition obj (fields : list (string * string)) : string :=
  "{" +:+ join ", " ((fun '(k, v) => q k +:+ ": " +:+ v) <$> fields) +:+ "}".

Definition request : string :=
  "Please refactor the login flow to use middleware".

Definition line_user (content : string) : string :=
  obj [("type", q "user");
       ("message", obj [("role", q "user"); ("content", q content)])].
Definition value_user (content : string) : json :=
  JDict [("type", JStr "user");
         ("message", JDict [("role", JStr "user"); ("content", JStr content)])].

Definition line_no_role : string :=
  obj [("type", q "user"); ("message", obj [("content", q "fix the bug")])].
Definition value_no_role : json :=
  JDict [("type", JStr "user");
         ("message", JDict [("content", JStr "fix the bug")])].

Definition line_tool_use : string :=
  obj [("type", q "tool_use"); ("name", q "Read")].
Definition value_tool_use : json :=
  JDict [("type", JStr "tool_use"); ("name", JStr "Read")].

Definition line_text_message : string :=
  obj [("type", q "user"); ("message", q "hi")].
Definition value_text_message : json :=
  JDict [("type", JStr "user"); ("message", JStr "hi")].

Definition line_number : string := "42".
Definition line_broken : string := "{" +:+ q "type" +:+ ": ".

Definition known_lines : list (string * json) :=
  [ (line_user "hi", value_user "hi");
    (line_user request, value_user request);
    (line_no_role, value_no_role);
    (line_tool_use, value_tool_use);
    (line_text_message, value_text_message);
    (line_number, JInt 42) ].

Definition loads (text : string) : result json :=
  match dict_get text known_lines with
  | Some v => Ok v
  | None => Raise JSONDecodeError
  end.

#[export] Instance lib : PyLib :=
  {| json_loads := loads;
     json_dumps := fun _ _ _ => "{}";
     py_repr := fun _ => "<repr>" |}.

(** A user message as the Log Reader returns it. *)
Definition user_message (content : string) : dict :=
  [("role", JStr "user"); ("content", JStr content); ("_msg_type", JStr "user")].

(** A text sub-block: an object of type [text] holding [text]. *)
Definition text_block (text : string) : json :=
  JDict [("type", JStr "text"); ("text", JStr text)].

(** Metadata of two exported conversations. *)
Definition md_first : metadata :=
  {| md_session_id := Some "s1"; md_date := Some "2026-01-02";
     md_message_count := Some 2; md_cwd := None;
     md_title := Some "First conversation"; md_tags := Some ["testing"] |}.
Definition md_second : metadata :=
  {| md_session_id := Some "s2"; md_date := Some "2025-12-24";
     md_message_count := Some 5; md_cwd := None;
     md_title := Some "Second conversation"; md_tags := Some [] |}.

Definition entry_first : string :=
  "- [2026-01-02] [First conversation](2026/01-02/s1.md) - testing" +:+ nl.
Definition entry_second : string :=
  "- [2025-12-24] [Second conversation](2025/12-24/s2.md)" +:+ nl.

(** An index as [update_index] creates it, before any entry. *)
Definition fresh_index : filesystem := {[ "out/index.md" := writelines index_header ]}.

(** An index that ends with the line of the section marker. *)
Definition marker_last_index : filesystem :=
  {[ "out/index.md" := "# Conversation Index" +:+ nl +:+ "## Conversations" +:+ nl ]}.

(** An index whose last line, the one below the marker, has no line feed. *)
Definition unfinished_index : filesystem :=
  {[ "out/index.md" := "## Conversations" +:+ nl +:+ "foo" ]}.

(** A hook run for the session [session-1] in the directory [/w]. *)
Definition hook_run : invocation :=
  {| argv := {| arg_session_id := None; arg_transcript := None;
                arg_output := None; arg_cwd := None |};
     stdin_isatty := false;
     stdin_json := Ok {[ "session_id" := "session-1";
                         "transcript_path" := "t.jsonl";
                         "cwd" := "/w" ]};
     today := "2026-01-02" |}.

(** A file system with a transcript of one record, where only the session
    [recorded] has been exported. *)
Definition exported_only (recorded : string) : filesystem :=
  {[ "/w/.claude/history/.exported_state" := recorded +:+ nl;
     "t.jsonl" := line_user request +:+ nl ]}.

(** A hook run whose payload has no working directory. *)
Definition hook_run_without_cwd : invocation :=
  {| argv := {| arg_session_id := None; arg_transcript := None;
                arg_output := None; arg_cwd := None |};
     stdin_isatty := false;
     stdin_json := Ok {[ "session_id" := "session-1";
                         "transcript_path" := "t.jsonl" ]};
     today := "2026-01-02" |}.

(** A command-line run without the required option [--output]. *)
Definition cli_run_without_output : invocation :=
  {| argv := {| arg_session_id := Some "session-1";
                arg_transcript := Some "t.jsonl";
                arg_output := None; arg_cwd := None |};
     stdin_isatty := true;
     stdin_json := Raise JSONDecodeError;
     today := "2026-01-02" |}.

(** A transcript of two records around a line that does not decode, and
    the same transcript without that line. *)
Definition transcript_with_broken_line : string :=
  line_tool_use +:+ nl +:+ line_broken +:+ nl +:+ line_user request +:+ nl.
Definition transcript_without_broken_line : string :=
  line_tool_use +:+ nl +:+ line_user request +:+ nl.

(** A user message with a text block, an image block and a nested tool
    result. *)
Definition user_blocks : list json :=
  [ text_block "look at this";
    JDict [("type", JStr "image");
           ("source", JDict [("media_type", JStr "image/png")])];
    JDict [("type", JStr "tool_result"); ("tool_use_id", JStr "t1");
           ("content", JList [text_block "done"])] ].
Definition user_with_blocks : dict :=
  [("role", JStr "user"); ("content", JList user_blocks)].

(** A user message whose text block holds a number. *)
Definition user_with_number : dict :=
  [("role", JStr "user");
   ("content", JList [JDict [("type", JStr "text"); ("text", JInt 5)]])].

(** An assistant message with a text block and a tool-use block. *)
Definition assistant_blocks : list json :=
  [ text_block "I will read the file";
    JDict [("type", JStr "tool_use"); ("name", JStr "Read");
           ("input", JDict [("path", JStr "a.txt")])] ].
Definition assistant_with_blocks : dict :=
  [("role", JStr "assistant"); ("content", JList assistant_blocks)].

(** An assistant message with a string content. *)
Definition assistant_message (content : string) : dict :=
  [("role", JStr "assistant"); ("content", JList [text_block content])].

(** A record of a role the document has no heading for. *)
Definition system_message : dict :=
  [("role", JStr "system"); ("content", JStr "compacted")].

(** An index without the section marker. *)
Definition plain_index : filesystem := {[ "out/index.md" := "My notes" +:+ nl ]}.



(** A file system that holds a transcript of one record and nothing else. *)
Definition transcript_only : filesystem := {[ "t.jsonl" := line_user request +:+ nl ]}.

End Samples.

(** ** Definitions used to state the properties *)

(** The record is of the user role, as [generate_title] tests it. *)
Definition is_user (m : dict) : bool := is_str (get "role" m) "user".

(** The three conditions on an extracted content: it is not empty, its
    trimmed text starts with none of the markers, and its trimmed length
    is at least 20. *)
Definition content_qualifies (c : string) : bool :=
  negb (is_empty c)
  && negb (existsb (startswith (strip c)) skip_prefixes)
  && (20 <=? String.length (strip c))%nat.

(** The first line of a content: the text before the first line feed of
    the trimmed content, itself trimmed. *)
Definition first_line_of (c : string) : string :=
  strip (split_nl_first (strip c)).

(** The title a first line gives. *)
Definition title_of_line (first_line : string) : string :=
  if (50 <? String.length first_line)%nat
  then slice 0 47 first_line +:+ "..."
  else first_line.

Definition default_title (session_id : string) : string :=
  "Conversation " +:+ slice 0 8 session_id.

Section Qualifying.
Context `{PyLib}.

(** A record title inference passes over: it is not of the user role, or
    its extraction returns and the content does not qualify. *)
Definition passed_over (m : dict) : Prop :=
  is_user m = false
  \/ exists content, (extract_content m).1 = Ok content
       /\ forall c, content = Some c -> content_qualifies c = false.

End Qualifying.

(** A row of the keyword table is a hit for [tag] in a text: it maps to
    [tag] and its keyword occurs in the text. *)
Definition hit (all_text : string) (row : string * string) (tag : string) : bool :=
  String.eqb row.2 tag && contains row.1 all_text.

(** The index in a table, counted from [i], of the first hit for [tag]. *)
Fixpoint first_match_from (i : nat) (table : list (string * string))
    (all_text tag : string) : option nat :=
  match table with
  | [] => None
  | row :: rest =>
      if hit all_text row tag then Some i
      else first_match_from (S i) rest all_text tag
  end.

(** The index in [keywords] of the first keyword of [tag] that occurs in
    the text. *)
Definition first_match (all_text tag : string) : option nat :=
  first_match_from 0 keywords all_text tag.

(** A list of tags is in the order of the first matching keywords. *)
Definition in_first_match_order (all_text : string) (tags : list string) : Prop :=
  forall i j ti tj,
    i < j -> tags !! i = Some ti -> tags !! j = Some tj ->
    exists pi pj,
      first_match all_text ti = Some pi /\ first_match all_text tj = Some pj
      /\ pi < pj.

(** What an operation may do to a record: nothing, or remove its
    [_msg_type] tag. *)
Definition untagged (m m' : dict) : Prop :=
  m' = m \/ m' = dict_remove "_msg_type" m.

(** The [_msg_type] tag of a record, when it has one, equals its role. *)
Definition tag_agrees (m : dict) : Prop :=
  match dict_get "_msg_type" m with
  | None => True
  | Some t => dict_get "role" m = Some t
  end.

(** A verbatim block around a text. *)
Definition fenced (text : string) : string :=
  "```" +:+ nl +:+ text +:+ nl +:+ "```" +:+ nl.

(** A standalone tool result: a record whose type is [tool_result], as
    the Log Reader appends it. *)
Definition standalone_tool_result (m : dict) : bool :=
  is_str (get "type" m) "tool_result".

Section ToolResult.
Context `{PyLib}.

(** The header line of a tool result. *)
Definition tool_result_header (m : dict) : string :=
  "**Tool Result**: `" +:+ py_str (get_or "tool_use_id" (JStr "unknown") m)
  +:+ "`" +:+ nl.

(** The rendering the specification words describe for a list content:
    the text sub-blocks concatenated, with a separator, inside one
    verbatim block. *)
Definition one_block_rendering (sep : string) (m : dict) (items : list json)
  : string :=
  tool_result_header m +:+ fenced (join sep (py_str <$> text_items items)).

(** The rendering with one verbatim block for each text sub-block. *)
Definition block_per_item_rendering (m : dict) (items : list json) : string :=
  tool_result_header m +:+ String.concat "" (fenced <$> (py_str <$> text_items items)).

End ToolResult.

(** A complete line: characters other than a carriage return or a line
    feed, and one line feed at the end. *)
Fixpoint complete_line (l : string) : bool :=
  match l with
  | "" => false
  | String c r =>
      if Ascii.eqb c LF then is_empty r
      else negb (Ascii.eqb c CR) && complete_line r
  end.

(** The records a decoded line contributes to the result of the Log
    Reader: the tagged message of a user or assistant record, the record
    itself for a tool use or a tool result, nothing otherwise. *)
Definition records_of (v : json) : list dict :=
  match v with
  | JDict data =>
      let msg_type := get "type" data in
      if is_str msg_type "user" || is_str msg_type "assistant" then
        match dict_get "message" data with
        | Some (JDict msg_data) => [dict_set "_msg_type" msg_type msg_data]
        | _ => []
        end
      else if is_str msg_type "tool_use" || is_str msg_type "tool_result"
      then [data]
      else []
  | _ => []
  end.

(** A decoded line on which the loop raises an exception other than a
    decode error: the value is not an object, or it is a user or assistant
    record whose message is not an object. *)
Definition breaks_read (v : json) : bool :=
  match v with
  | JDict data =>
      (is_str (get "type" data) "user" || is_str (get "type" data) "assistant")
      && match dict_get "message" data with
         | Some (JDict _) | None => false
         | Some _ => true
         end
  | _ => true
  end.

Section Lines.
Context `{PyLib}.

(** The records of a line of the file: none for a blank line and for a
    line that does not decode. *)
Definition line_records (line : string) : list dict :=
  if is_empty (strip line) then []
  else match json_loads (strip line) with
       | Ok v => records_of v
       | Raise _ => []
       end.

(** A line the loop gets past: it is blank, or it does not decode, or it
    decodes to a value that does not break the read. *)
Definition line_passes (line : string) : bool :=
  is_empty (strip line)
  || match json_loads (strip line) with
     | Ok v => negb (breaks_read v)
     | Raise JSONDecodeError => true
     | Raise _ => false
     end.

End Lines.

(** The run is in hook mode: no command-line option and a standard input
    that is not a terminal. *)
Definition hook_mode (inv : invocation) : bool :=
  no_arguments (argv inv) && negb (stdin_isatty inv).

(** A required command-line option is missing. *)
Definition missing_required (args : cli_args) : bool :=
  match arg_session_id args, arg_transcript args, arg_output args with
  | Some _, Some _, Some _ => false
  | _, _, _ => true
  end.

(** The hook payload is refused: it does not decode, or its session
    identifier or its working directory is missing or empty. *)
Definition payload_refused (inv : invocation) : bool :=
  match stdin_json inv with
  | Ok hook_data =>
      is_empty (default "" (hook_data !! "session_id"))
      || is_empty (default "" (hook_data !! "cwd"))
  | Raise JSONDecodeError => true
  | Raise _ => false
  end.

(** The status the process ends with: the value [main] returns, the
    argument of [sys.exit], and 1 for an exception nobody catches. *)
Definition exit_status (o : outcome) : Z :=
  match o with
  | Return code => code
  | SysExit code => code
  | Uncaught _ => 1%Z
  end.

(** The marker file of a working directory. *)
Definition state_file_of (cwd : string) : string :=
  cwd +:+ "/.claude/history" +:+ "/.exported_state".

(** A text without carriage return and line feed. *)
Fixpoint single_line (s : string) : bool :=
  match s with
  | "" => true
  | String c r => negb (Ascii.eqb c LF) && negb (Ascii.eqb c CR) && single_line r
  end.

(** Whether the character before the end of [s] is a carriage return;
    [after_cr] is the answer for the empty text. *)
Fixpoint ends_with_cr (after_cr : bool) (s : string) : bool :=
  match s with
  | "" => after_cr
  | String c r => ends_with_cr (Ascii.eqb c CR) r
  end.

(** What one extracted content adds to the text [extract_tags] collects. *)
Definition text_of (content : option string) : string :=
  match content with
  | Some (String c r) => lower (String c r) +:+ " "
  | _ => ""
  end.

(** A record as the Log Reader returns it: a message tagged [user] or
    [assistant], or a record of type [tool_use] or [tool_result]. *)
Definition reader_record (m : dict) : bool :=
  is_str (get "_msg_type" m) "user"
  || is_str (get "_msg_type" m) "assistant"
  || is_str (get "type" m) "tool_use"
  || is_str (get "type" m) "tool_result".

Section SkippedLines.
Context `{PyLib}.

(** A line the loop skips: it is blank, or it does not decode. *)
Definition line_skipped (line : string) : bool :=
  is_empty (strip line)
  || match json_loads (strip line) with
     | Raise JSONDecodeError => true
     | _ => false
     end.

End SkippedLines.

(** The value is a string. *)
Definition is_string (v : json) : bool :=
  match v with
  | JStr _ => true
  | _ => false
  end.

(** A block, or an item, that is not a text block or whose [text] is a
    string (or absent). *)
Definition text_well_typed (block : json) : bool :=
  match block with
  | JDict block =>
      if is_str (get "type" block) "text"
      then is_string (get_or "text" (JStr "") block)
      else true
  | _ => true
  end.

(** A block of a user message on which the loop of [extract_content] puts
    only strings in [texts] and raises nothing: the text of a text block
    is a string, the source of an image block is an object (or absent),
    the text of every text item of a nested tool result is a string. *)
Definition user_block_well_typed (block : json) : bool :=
  match block with
  | JDict block =>
      if is_str (get "type" block) "text"
      then is_string (get_or "text" (JStr "") block)
      else if is_str (get "type" block) "image" then
        match get_or "source" (JDict []) block with
        | JDict _ => true
        | _ => false
        end
      else if is_str (get "type" block) "tool_result" then
        match dict_get "content" block with
        | Some (JList items) => forallb text_well_typed items
        | _ => true
        end
      else true
  | _ => true
  end.

(** The record takes the user branch of the dispatch. *)
Definition dispatches_user (m : dict) : bool :=
  is_str (default (get_or "role" (JStr "") m) (dict_get "_msg_type" m)) "user"
  || is_str (get "role" m) "user".

(** The record takes the assistant branch of the dispatch. *)
Definition dispatches_assistant (m : dict) : bool :=
  negb (dispatches_user m)
  && (is_str (default (get_or "role" (JStr "") m) (dict_get "_msg_type" m)) "assistant"
      || is_str (get "role" m) "assistant").

(** The text holds no line feed. *)
Fixpoint no_line_feed (s : string) : bool :=
  match s with
  | "" => true
  | String c r => negb (Ascii.eqb c LF) && no_line_feed r
  end.

(** The value [to_markdown] maps to a heading: the role when it is
    truthy, the type otherwise. *)
Definition role_value (m : dict) : json :=
  if truthy (get "role" m) then get "role" m else get "type" m.

(** The record has a heading in the document. *)
Definition has_heading (m : dict) : bool :=
  match heading_of (role_value m) with
  | Some _ => true
  | None => false
  end.

(** A sequence of calls of [update_index], one for each session
    identifier and its metadata, in the order of the list. *)
Definition update_index_all (fs : filesystem) (now : string)
    (output_dir : PurePath) (items : list (string * metadata)) : filesystem :=
  fold_left (fun fs item => update_index fs now output_dir item.1 item.2) items fs.

(** A section of the document: a heading and the contents under it. *)
Definition section : Type := string * list string.

(** A section placed before a list of sections: it absorbs the first of
    them when both have the same heading. *)
Definition merge_section (s : section) (sections : list section) : list section :=
  match sections with
  | (role, contents) :: rest =>
      if String.eqb s.1 role then (s.1, s.2 ++ contents) :: rest
      else s :: sections
  | [] => [s]
  end.

(** The sections of a list of (heading, content) items: each maximal run
    of consecutive items with the same heading is one section. *)
Fixpoint sections_of (items : list (string * string)) : list section :=
  match items with
  | [] => []
  | (role, content) :: rest => merge_section (role, [content]) (sections_of rest)
  end.

(** The text of a section: the heading, an empty line, the contents. *)
Definition section_text (s : section) : string := join nl (s.1 :: "" :: s.2).

(** The lines of the body of a document: the sections, with an empty
    line, a rule and an empty line between two of them. *)
Fixpoint body_of (sections : list section) : list string :=
  match sections with
  | [] => []
  | s :: rest =>
      match rest with
      | [] => [section_text s]
      | _ => section_text s :: "" :: "---" :: "" :: body_of rest
      end
  end.

Section Renders.
Context `{PyLib}.

(** The record has the heading and the non-empty content of the item. *)
Definition renders_as (m : dict) (item : string * string) : Prop :=
  heading_of (role_value m) = Some item.1
  /\ (extract_content m).1 = Ok (Some item.2)
  /\ is_empty item.2 = false.

End Renders.

(** The text holds no path separator. *)
Fixpoint no_sep (s : string) : bool :=
  match s with
  | "" => true
  | String c r => negb (is_sep c) && no_sep r
  end.

(** The number of path separators of a text. *)
Fixpoint count_sep (s : string) : nat :=
  match s with
  | "" => 0
  | String c r => (if is_sep c then 1 else 0) + count_sep r
  end.

(** A file name: not empty, without separator, and neither [.] nor [..];
    [pathlib] appends it to a path as one component, and the operating
    system looks it up in the directory named by the components before. *)
Definition file_name (s : string) : bool :=
  kept_part s && no_sep s && negb (String.eqb s "..").

(** The three names [save_conversation] appends to the output directory
    are file names: the year, the month and day, the file of the session. *)
Definition document_names (date session_id : string) : bool :=
  file_name (slice 0 4 date)
  && file_name (slice 5 7 date +:+ "-" +:+ slice 8 10 date)
  && file_name (session_id +:+ ".md").

(** The path of the document of a session: the three names, below the
    output directory. *)
Definition document_path (output_dir : PurePath) (date session_id : string)
  : string :=
  str_of_path
    {| path_root := path_root output_dir;
       path_parts :=
         path_parts output_dir
         ++ [slice 0 4 date; slice 5 7 date +:+ "-" +:+ slice 8 10 date;
             session_id +:+ ".md"] |}.


#[global] Arguments extract_content : simpl never.

(** ** Properties of the string primitives *)

Lemma lstrip_head s a r : lstrip s = String a r -> isspace a = false.
Proof.
  induction s as [|c s IH]; simpl; [discriminate|].
  destruct (isspace c) eqn:E; [exact IH|].
  intros [= <- _]. exact E.
Qed.

Lemma rstrip_keeps_head a r : isspace a = false -> exists r', rstrip (String a r) = String a r'.
Proof.
  intros Ha. simpl. destruct (rstrip r); [rewrite Ha|]; eauto.
Qed.

Lemma rstrip_head s a r : rstrip s = String a r -> exists r0, s = String a r0.
Proof.
  destruct s as [|c s]; simpl; [discriminate|].
  destruct (rstrip s).
  - destruct (isspace c); [discriminate|]. intros [= <- _]. eauto.
  - intros [= <- _]. eauto.
Qed.

Lemma strip_head s a r : strip s = String a r -> isspace a = false.
Proof.
  unfold strip. intros Hs.
  apply rstrip_head in Hs as [r0 Hs]. eapply lstrip_head, Hs.
Qed.

Lemma strip_keeps_head a r : isspace a = false -> exists r', strip (String a r) = String a r'.
Proof.
  intros Ha. unfold strip. simpl. rewrite Ha. by apply rstrip_keeps_head.
Qed.

Lemma append_assoc (a b c : string) : (a +:+ b) +:+ c = a +:+ b +:+ c.
Proof.
  induction a as [|x a IH]; [done|].
  change (String x ((a +:+ b) +:+ c) = String x (a +:+ b +:+ c)). by rewrite IH.
Qed.

Lemma append_nil_r (a : string) : a +:+ "" = a.
Proof.
  induction a as [|x a IH]; [done|].
  change (String x (a +:+ "") = String x a). by rewrite IH.
Qed.

Lemma concat_cons (x : string) (l : list string) :
  String.concat "" (x :: l) = x +:+ String.concat "" l.
Proof. destruct l; simpl; [by rewrite append_nil_r | done]. Qed.

Lemma append_cons (c : ascii) (a b : string) : String c a +:+ b = String c (a +:+ b).
Proof. reflexivity. Qed.

Lemma isspace_LF : isspace LF = true.
Proof. reflexivity. Qed.

(** The first line of a non-empty trimmed text is not empty. *)
Lemma first_line_nonempty c :
  strip c <> "" -> is_empty (first_line_of c) = false.
Proof.
  unfold first_line_of. destruct (strip c) as [|a r] eqn:E; [done|]. intros _.
  pose proof (strip_head _ _ _ E) as Ha.
  simpl. destruct (Ascii.eqb a LF) eqn:Ea.
  - apply Ascii.eqb_eq in Ea. subst a. rewrite isspace_LF in Ha. discriminate.
  - destruct (strip_keeps_head a (split_nl_first r) Ha) as [r' ->]. reflexivity.
Qed.

Lemma length_20_nonempty s : (20 <=? String.length s)%nat = true -> s <> "".
Proof. intros Hl ->. discriminate. Qed.

(** ** Title inference *)

Section Title.
Context `{PyLib}.

(** The body of the loop, by cases on the three conditions. *)
Lemma title_of_content_qualifies c :
  content_qualifies c = true ->
  title_of_content (Some c) = Some (title_of_line (first_line_of c)).
Proof.
  unfold content_qualifies, title_of_content, title_of_line.
  intros [[Hne Hm]%andb_prop Hl]%andb_prop.
  apply negb_true_iff in Hne, Hm. rewrite Hne, Hm.
  replace (String.length (strip c) <? 20)%nat with false
    by (symmetry; apply Nat.ltb_ge; by apply Nat.leb_le).
  fold (first_line_of c).
  destruct (50 <? String.length (first_line_of c))%nat; [done|].
  rewrite first_line_nonempty; [done|]. by apply length_20_nonempty.
Qed.

Lemma title_of_content_passed content :
  (forall c, content = Some c -> content_qualifies c = false) ->
  title_of_content content = None.
Proof.
  destruct content as [c|]; [|done]. intros Hq. specialize (Hq c eq_refl).
  unfold content_qualifies in Hq. unfold title_of_content.
  destruct (is_empty c); [done|].
  destruct (existsb _ _); [done|]. cbn [negb andb] in Hq.
  apply Nat.leb_gt in Hq. apply Nat.ltb_lt in Hq. by rewrite Hq.
Qed.

Lemma title_loop_passed_over pre rest :
  Forall passed_over pre ->
  (title_loop (pre ++ rest)).1 = (title_loop rest).1.
Proof.
  induction 1 as [|m pre Hm _ IH]; [done|]. cbn [app title_loop].
  destruct Hm as [Hu|(content & Hc & Hq)].
  - unfold is_user in Hu. rewrite Hu.
    destruct (title_loop (pre ++ rest)), (title_loop rest). exact IH.
  - destruct (is_str (get "role" m) "user").
    + destruct (extract_content m) as [r m'] eqn:E. simpl in Hc. subst r.
      rewrite (title_of_content_passed _ Hq).
      destruct (title_loop (pre ++ rest)), (title_loop rest). exact IH.
    + destruct (title_loop (pre ++ rest)), (title_loop rest). exact IH.
Qed.

Lemma generate_title_fst messages session_id :
  (generate_title messages session_id).1
  = (found ← (title_loop messages).1; mret (default (default_title session_id) found)).
Proof. unfold generate_title. by destruct (title_loop messages). Qed.

(** An exception of content extraction on a user-role record that title
    inference reaches leaves [generate_title]. *)
Lemma generate_title_raises pre m post session_id e :
  Forall passed_over pre ->
  is_user m = true ->
  (extract_content m).1 = Raise e ->
  (generate_title (pre ++ m :: post) session_id).1 = Raise e.
Proof.
  intros Hpre Hu He.
  rewrite generate_title_fst, (title_loop_passed_over _ _ Hpre).
  cbn [title_loop]. unfold is_user in Hu. rewrite Hu.
  destruct (extract_content m) as [r m']. simpl in He. by subst r.
Qed.

(** C3. [generate_title] returns the title of the first line of the first
    user-role record whose extracted content is not empty, starts with none
    of the markers and has trimmed length at least 20: that first line, or
    its first 47 characters and an ellipsis when it is longer than 50; when
    no record qualifies it returns the fixed prefix and the first 8
    characters of the session identifier.  The first line is the text
    before the first line feed of the trimmed content, trimmed. *)
Theorem generate_title_first_qualifying (messages : list dict) (session_id : string) :
  (forall pre m post c,
      messages = pre ++ m :: post ->
      Forall passed_over pre ->
      is_user m = true ->
      (extract_content m).1 = Ok (Some c) ->
      content_qualifies c = true ->
      (generate_title messages session_id).1
      = Ok (if (50 <? String.length (first_line_of c))%nat
            then substring 0 47 (first_line_of c) +:+ "..."
            else first_line_of c))
  /\ (Forall passed_over messages ->
      (generate_title messages session_id).1
      = Ok ("Conversation " +:+ substring 0 8 session_id)).
Proof.
  split.
  - intros pre m post c -> Hpre Hu Hc Hq.
    rewrite generate_title_fst, (title_loop_passed_over _ _ Hpre).
    cbn [title_loop]. unfold is_user in Hu. rewrite Hu.
    destruct (extract_content m) as [r m']. simpl in Hc. subst r.
    rewrite (title_of_content_qualifies _ Hq). reflexivity.
  - intros Hall.
    rewrite generate_title_fst, <- (app_nil_r messages),
      (title_loop_passed_over _ _ Hall).
    reflexivity.
Qed.

End Title.

(** ** Tag inference *)

Section Scan.
Variable all_text : string.

Lemma mem_In tag tags : mem tag tags = true <-> In tag tags.
Proof.
  unfold mem. rewrite existsb_exists. split.
  - intros (t & Hin & ->%String.eqb_eq). exact Hin.
  - intros Hin. exists tag. split; [exact Hin | apply String.eqb_refl].
Qed.

Lemma first_match_from_bound table i tag p :
  first_match_from i table all_text tag = Some p ->
  i <= p < i + length table.
Proof.
  revert i. induction table as [|row table IH]; intros i; simpl; [discriminate|].
  destruct (hit all_text row tag).
  - intros [= <-]. lia.
  - intros Hp%IH. lia.
Qed.

(** The first hit in a table extended by one row. *)
Lemma first_match_from_snoc table row i tag :
  first_match_from i (table ++ [row]) all_text tag
  = match first_match_from i table all_text tag with
    | Some p => Some p
    | None => if hit all_text row tag then Some (i + length table) else None
    end.
Proof.
  revert i. induction table as [|row' table IH]; intros i; simpl.
  - rewrite Nat.add_0_r. reflexivity.
  - destruct (hit all_text row' tag); [reflexivity|].
    rewrite IH. replace (S i + length table) with (i + S (length table)) by lia.
    reflexivity.
Qed.

(** The invariant of the scan after the rows [seen]: [tags] holds exactly
    the tags that have a hit among them, in the order of their first hits. *)
Definition scan_inv (seen : list (string * string)) (tags : list string) : Prop :=
  (forall t, In t tags <-> exists p, first_match_from 0 seen all_text t = Some p)
  /\ (forall i j ti tj,
        i < j -> tags !! i = Some ti -> tags !! j = Some tj ->
        exists pi pj,
          first_match_from 0 seen all_text ti = Some pi
          /\ first_match_from 0 seen all_text tj = Some pj /\ pi < pj).

Lemma scan_inv_same seen row tags :
  (forall t, first_match_from 0 (seen ++ [row]) all_text t
             = first_match_from 0 seen all_text t) ->
  scan_inv seen tags -> scan_inv (seen ++ [row]) tags.
Proof.
  intros Hsame [Hin Hord]. split.
  - intros t. rewrite Hsame. apply Hin.
  - intros i j ti tj Hij Hi Hj.
    destruct (Hord i j ti tj Hij Hi Hj) as (pi & pj & ? & ? & ?).
    exists pi, pj. by rewrite !Hsame.
Qed.

Lemma scan_inv_step seen keyword tag tags :
  scan_inv seen tags ->
  scan_inv (seen ++ [(keyword, tag)])
    (if contains keyword all_text && negb (mem tag tags)
     then tags ++ [tag] else tags).
Proof.
  intros Hinv.
  destruct (contains keyword all_text) eqn:Hc; cycle 1.
  { apply scan_inv_same; [|exact Hinv]. intros t.
    rewrite first_match_from_snoc. unfold hit; simpl. rewrite Hc, andb_false_r.
    by destruct (first_match_from 0 seen all_text t). }
  destruct (mem tag tags) eqn:Hm; simpl.
  { apply scan_inv_same; [|exact Hinv]. intros t.
    rewrite first_match_from_snoc. unfold hit; simpl.
    destruct (first_match_from 0 seen all_text t) eqn:Ht; [done|].
    destruct (String.eqb tag t) eqn:Heq; [|done].
    apply String.eqb_eq in Heq. subst t.
    apply mem_In, (proj1 Hinv) in Hm as [p Hp]. congruence. }
  destruct Hinv as [Hin Hord].
  assert (Hnone : first_match_from 0 seen all_text tag = None).
  { destruct (first_match_from 0 seen all_text tag) eqn:Ht; [|done].
    assert (In tag tags) as Hi%mem_In by (apply Hin; eauto). congruence. }
  assert (Hnew : first_match_from 0 (seen ++ [(keyword, tag)]) all_text tag
                 = Some (length seen)).
  { rewrite first_match_from_snoc, Hnone. unfold hit; simpl.
    by rewrite String.eqb_refl, Hc. }
  assert (Hold : forall t p, first_match_from 0 seen all_text t = Some p ->
            first_match_from 0 (seen ++ [(keyword, tag)]) all_text t = Some p).
  { intros t p Hp. by rewrite first_match_from_snoc, Hp. }
  split.
  - intros t. rewrite in_app_iff. split.
    + intros [Ht|[<-|[]]]; [|eauto]. apply Hin in Ht as [p Hp]. eauto.
    + intros [p Hp]. rewrite first_match_from_snoc in Hp.
      destruct (first_match_from 0 seen all_text t) eqn:Ht.
      * left. apply Hin. eauto.
      * right. unfold hit in Hp; simpl in Hp.
        destruct (String.eqb tag t) eqn:Heq; [|done].
        apply String.eqb_eq in Heq. by left.
  - intros i j ti tj Hij Hi Hj.
    assert (i < length tags) as Hilt.
    { apply lookup_lt_Some in Hj. rewrite length_app in Hj. simpl in Hj. lia. }
    rewrite lookup_app_l in Hi by exact Hilt.
    destruct (decide (j < length tags)) as [Hjlt|Hjge].
    + rewrite lookup_app_l in Hj by exact Hjlt.
      destruct (Hord i j ti tj Hij Hi Hj) as (pi & pj & ? & ? & ?).
      exists pi, pj. eauto.
    + rewrite lookup_app_r in Hj by lia.
      destruct (j - length tags) eqn:Hd; [|by destruct n].
      simpl in Hj. injection Hj as <-.
      assert (In ti tags) as [pi Hpi]%Hin.
      { apply list_elem_of_In. eapply list_elem_of_lookup_2, Hi. }
      exists pi, (length seen). split; [eauto|]. split; [exact Hnew|].
      apply first_match_from_bound in Hpi. lia.
Qed.

(** The scan keeps the invariant over the rest of the table. *)
Lemma scan_keywords_inv rest seen tags :
  scan_inv seen tags ->
  scan_inv (seen ++ rest) (scan_keywords rest all_text tags).
Proof.
  revert seen tags. induction rest as [|[keyword tag] rest IH]; intros seen tags Hinv.
  - by rewrite app_nil_r.
  - replace (seen ++ (keyword, tag) :: rest) with ((seen ++ [(keyword, tag)]) ++ rest)
      by (by rewrite <- app_assoc).
    pose proof (scan_inv_step seen keyword tag tags Hinv) as Hstep.
    simpl. destruct (contains keyword all_text && negb (mem tag tags));
      by apply IH.
Qed.

Lemma scan_inv_nil : scan_inv [] [].
Proof.
  split.
  - intros t. split; [intros []|intros [p [=]]].
  - intros i j ti tj _ [=].
Qed.

(** All tags of the text, before the cap. *)
Lemma scan_keywords_table : scan_inv keywords (scan_keywords keywords all_text []).
Proof. apply (scan_keywords_inv keywords [] []), scan_inv_nil. Qed.

Lemma in_first_match_order_NoDup tags :
  in_first_match_order all_text tags -> NoDup tags.
Proof.
  intros Hord. apply NoDup_alt. intros i j t Hi Hj.
  destruct (Nat.lt_total i j) as [Hlt|[Heq|Hlt]]; [|exact Heq|].
  - destruct (Hord i j t t Hlt Hi Hj) as (pi & pj & Hpi & Hpj & Hp).
    rewrite Hpi in Hpj. injection Hpj as ->. lia.
  - destruct (Hord j i t t Hlt Hj Hi) as (pi & pj & Hpi & Hpj & Hp).
    rewrite Hpi in Hpj. injection Hpj as ->. lia.
Qed.

Lemma tags_of_text_order : in_first_match_order all_text (tags_of_text all_text).
Proof.
  intros i j ti tj Hij Hi Hj. unfold tags_of_text in Hi, Hj.
  apply lookup_take_Some in Hi as [Hi _], Hj as [Hj _].
  exact (proj2 scan_keywords_table i j ti tj Hij Hi Hj).
Qed.

Lemma tags_of_text_length : length (tags_of_text all_text) <= 5.
Proof. unfold tags_of_text. apply firstn_le_length. Qed.

End Scan.

Lemma first_match_from_hit all_text table i row tag :
  In row table -> hit all_text row tag = true ->
  exists p, first_match_from i table all_text tag = Some p.
Proof.
  revert i. induction table as [|row' table IH]; intros i Hin Hhit; [destruct Hin|].
  simpl. destruct (hit all_text row' tag) eqn:Hrow'; [eauto|].
  destruct Hin as [->|Hin]; [congruence|]. by apply IH.
Qed.

Section Tags.
Context `{PyLib}.

Lemma extract_tags_unfold messages :
  extract_tags messages
  = (all_text ← (collect_text "" messages).1; mret (tags_of_text all_text),
     (collect_text "" messages).2).
Proof. unfold extract_tags. by destruct (collect_text "" messages). Qed.

(** C5. In the list [extract_tags] returns, every tag occurs at most once,
    also when several keywords of the table map to it; the tags are in the
    order in which their first matching keywords stand in the table; and
    there are at most 5 of them. *)
Theorem extract_tags_unique_ordered_capped (messages : list dict)
    (all_text : string) (messages' : list dict) :
  collect_text "" messages = (Ok all_text, messages') ->
  exists tags,
    extract_tags messages = (Ok tags, messages')
    /\ NoDup tags
    /\ in_first_match_order all_text tags
    /\ length tags <= 5.
Proof.
  intros Hc. exists (tags_of_text all_text).
  rewrite extract_tags_unfold, Hc. split; [reflexivity|].
  split; [|split].
  - eapply in_first_match_order_NoDup, tags_of_text_order.
  - apply tags_of_text_order.
  - apply tags_of_text_length.
Qed.

(** C10, as the code has it.  Keywords are matched as substrings of the
    lower-cased text [extract_tags] collects, also inside a longer word: a
    tag whose keyword occurs in that text is in the result, unless the
    result already holds five tags whose first matching keywords all come
    earlier in the table. *)
Theorem extract_tags_substring_match (messages : list dict) (all_text : string)
    (messages' : list dict) (keyword tag : string) :
  collect_text "" messages = (Ok all_text, messages') ->
  In (keyword, tag) keywords ->
  contains keyword all_text = true ->
  exists tags,
    extract_tags messages = (Ok tags, messages')
    /\ (In tag tags
        \/ (length tags = 5
            /\ forall t, In t tags ->
                 exists p q, first_match all_text t = Some p
                   /\ first_match all_text tag = Some q /\ p < q)).
Proof.
  intros Hc Hrow Hsub. exists (tags_of_text all_text).
  rewrite extract_tags_unfold, Hc. split; [reflexivity|].
  destruct (scan_keywords_table all_text) as [Hin Hord].
  assert (In tag (scan_keywords keywords all_text [])) as Htag.
  { apply Hin. apply (first_match_from_hit _ _ _ (keyword, tag)); [exact Hrow|].
    unfold hit; simpl. by rewrite String.eqb_refl, Hsub. }
  apply list_elem_of_In, list_elem_of_lookup in Htag as [j Hj].
  unfold tags_of_text.
  destruct (decide (j < 5)) as [Hlt|Hge].
  - left. apply list_elem_of_In, list_elem_of_lookup. exists j.
    apply lookup_take_Some. by split.
  - right. split.
    + apply lookup_lt_Some in Hj. rewrite length_take. lia.
    + intros t [i Hi]%list_elem_of_In%list_elem_of_lookup.
      apply lookup_take_Some in Hi as [Hi Hi5].
      apply (Hord i j t tag); [lia | exact Hi | exact Hj].
Qed.

End Tags.

(** ** The effect of the operations on the records *)

Lemma dict_get_remove k d : dict_get k (dict_remove k d) = None.
Proof.
  induction d as [|[k' v] d IH]; [done|]. simpl.
  destruct (String.eqb k k') eqn:E; [exact IH|]. simpl. by rewrite E.
Qed.

Lemma dict_get_remove_ne k k' d :
  k' <> k -> dict_get k' (dict_remove k d) = dict_get k' d.
Proof.
  intros Hne. induction d as [|[k0 v] d IH]; [done|]. simpl.
  destruct (String.eqb k k0) eqn:E.
  - apply String.eqb_eq in E. subst k0.
    destruct (String.eqb k' k) eqn:E'; [|exact IH].
    by apply String.eqb_eq in E'.
  - simpl. by rewrite IH.
Qed.

Lemma dict_remove_idem k d : dict_remove k (dict_remove k d) = dict_remove k d.
Proof.
  induction d as [|[k' v] d IH]; [done|]. simpl.
  destruct (String.eqb k k') eqn:E; [exact IH|]. simpl. by rewrite E, IH.
Qed.

Lemma untagged_refl m : untagged m m.
Proof. by left. Qed.

Lemma Forall2_untagged_refl ms : Forall2 untagged ms ms.
Proof. induction ms; constructor; [apply untagged_refl | done]. Qed.

Section Records.
Context `{PyLib}.

Lemma extract_content_eq m :
  extract_content m
  = (extract_dispatch
       (default (get_or "role" (JStr "") m) (dict_get "_msg_type" m))
       (dict_remove "_msg_type" m),
     dict_remove "_msg_type" m).
Proof. reflexivity. Qed.

Lemma extract_content_snd m : (extract_content m).2 = dict_remove "_msg_type" m.
Proof. reflexivity. Qed.

(** When extraction returns on every record, the text collected is the
    lower-cased contents, each followed by a space, in the order of the
    records. *)
Lemma collect_text_concat all_text messages contents :
  Forall2 (fun m content => (extract_content m).1 = Ok content) messages contents ->
  collect_text all_text messages
  = (Ok (all_text +:+ String.concat "" (text_of <$> contents)),
     dict_remove "_msg_type" <$> messages).
Proof.
  intros Hall. revert all_text.
  induction Hall as [|m content messages contents Hm _ IH]; intros all_text.
  - simpl. by rewrite append_nil_r.
  - cbn [collect_text]. rewrite extract_content_eq in Hm |- *. cbn [fst] in Hm.
    rewrite Hm, IH. cbn [fmap list_fmap]. rewrite concat_cons. f_equal. f_equal.
    destruct content as [[|c r]|]; cbn [is_empty text_of];
      by rewrite ?append_assoc.
Qed.

Lemma extract_content_untagged m : untagged m (extract_content m).2.
Proof. by right. Qed.

Lemma title_loop_untagged messages : Forall2 untagged messages (title_loop messages).2.
Proof.
  induction messages as [|m rest IH]; [constructor|]. cbn [title_loop].
  pose proof (extract_content_untagged m) as Hm.
  destruct (is_str (get "role" m) "user").
  - destruct (extract_content m) as [[content|e] m']; simpl in Hm.
    + destruct (title_of_content content).
      * constructor; [exact Hm | apply Forall2_untagged_refl].
      * destruct (title_loop rest). by constructor.
    + constructor; [exact Hm | apply Forall2_untagged_refl].
  - destruct (title_loop rest). constructor; [apply untagged_refl | exact IH].
Qed.

Lemma collect_text_untagged all_text messages :
  Forall2 untagged messages (collect_text all_text messages).2.
Proof.
  revert all_text. induction messages as [|m rest IH]; intros all_text;
    [constructor|].
  cbn [collect_text]. pose proof (extract_content_untagged m) as Hm.
  destruct (extract_content m) as [[content|e] m']; simpl in Hm.
  - match goal with |- context [collect_text ?a rest] =>
      specialize (IH a); destruct (collect_text a rest) end.
    by constructor.
  - constructor; [exact Hm | apply Forall2_untagged_refl].
Qed.

(** One step of a proof about [render_loop]: take the induction
    hypothesis at the loop variables of the recursive call. *)
Local Ltac render_next IH :=
  match goal with
  | |- context [render_loop ?rest ?role ?content ?output] =>
      specialize (IH role content output);
      destruct (render_loop rest role content output)
  end.

Lemma render_loop_untagged messages current_role current_content output :
  Forall2 untagged messages
    (render_loop messages current_role current_content output).2.
Proof.
  revert current_role current_content output.
  induction messages as [|m rest IH]; intros current_role current_content output;
    [constructor|].
  cbn [render_loop]. pose proof (extract_content_untagged m) as Hm.
  destruct (heading_of _) as [role|].
  - destruct (extract_content m) as [[content|e] m']; simpl in Hm.
    + destruct content as [[|c text]|]; render_next IH; by constructor.
    + constructor; [exact Hm | apply Forall2_untagged_refl].
  - render_next IH. constructor; [apply untagged_refl | exact IH].
Qed.

(** C7, as the code has it.  Content extraction removes the [_msg_type]
    tag of the record it is given; title inference, tag inference and
    rendering leave every record as it was or with that tag removed; and
    removing the tag changes no other field. *)
Theorem records_change_only_by_tag_removal (message : dict)
    (messages : list dict) (session_id now : string) (md : metadata) :
  (extract_content message).2 = dict_remove "_msg_type" message
  /\ Forall2 untagged messages (generate_title messages session_id).2
  /\ Forall2 untagged messages (extract_tags messages).2
  /\ Forall2 untagged messages (to_markdown now messages md).2
  /\ (forall m m' k, untagged m m' -> k <> "_msg_type" ->
        dict_get k m' = dict_get k m).
Proof.
  split; [reflexivity|]. split; [|split; [|split]].
  - unfold generate_title. pose proof (title_loop_untagged messages) as Ht.
    by destruct (title_loop messages).
  - unfold extract_tags. pose proof (collect_text_untagged "" messages) as Ht.
    by destruct (collect_text "" messages).
  - unfold to_markdown.
    match goal with
    | |- context [render_loop messages ?role ?content ?output] =>
        pose proof (render_loop_untagged messages role content output) as Ht;
        destruct (render_loop messages role content output)
    end.
    exact Ht.
  - intros m m' k [->| ->] Hk; [done|]. by apply dict_get_remove_ne.
Qed.

(** Extraction gives the same result on a record and on the record
    without its tag, when the tag agrees with the role. *)
Lemma extract_content_untagged_same m :
  tag_agrees m ->
  (extract_content (dict_remove "_msg_type" m)).1 = (extract_content m).1.
Proof.
  intros Ha. rewrite !extract_content_eq. cbn [fst].
  rewrite dict_remove_idem, dict_get_remove. f_equal.
  unfold get_or. rewrite dict_get_remove_ne by done.
  unfold tag_agrees in Ha. destruct (dict_get "_msg_type" m) as [t|]; [|done].
  by rewrite Ha.
Qed.

Lemma collect_text_twice all_text messages :
  Forall tag_agrees messages ->
  (collect_text all_text (collect_text all_text messages).2).1
  = (collect_text all_text messages).1.
Proof.
  intros Hall. revert all_text.
  induction Hall as [|m rest Hm _ IH]; intros all_text; [done|].
  cbn [collect_text].
  pose proof (extract_content_untagged_same m Hm) as Hsame.
  pose proof (extract_content_snd m) as Hsnd.
  destruct (extract_content m) as [[content|e] m'] eqn:E; cbn [fst snd] in *;
    subst m'.
  - match goal with |- context [collect_text ?a rest] =>
      specialize (IH a); destruct (collect_text a rest) as [r rest'] eqn:Er end.
    cbn [fst snd] in *. cbn [collect_text].
    destruct (extract_content (dict_remove "_msg_type" m)) as [r0 m0].
    cbn [fst] in Hsame. subst r0.
    destruct (collect_text _ rest'). exact IH.
  - cbn [collect_text].
    destruct (extract_content (dict_remove "_msg_type" m)) as [r0 m0].
    cbn [fst] in Hsame. by subst r0.
Qed.

(** C6, as the code has it.  On records whose [_msg_type] tag, when
    present, equals their role, running [extract_tags] a second time on
    the same list gives the same result as the first run. *)
Theorem extract_tags_twice (messages : list dict) :
  Forall tag_agrees messages ->
  (extract_tags (extract_tags messages).2).1 = (extract_tags messages).1.
Proof.
  intros Hall. rewrite !extract_tags_unfold. cbn [fst snd].
  by rewrite collect_text_twice.
Qed.

End Records.

(** ** Content extraction of a standalone tool result *)

Section ToolResultProofs.
Context `{PyLib}.

Lemma tool_result_items_concat result items :
  tool_result_items result items
  = result +:+ String.concat "" (fenced <$> (py_str <$> text_items items)).
Proof.
  revert result. induction items as [|item items IH]; intros result.
  - simpl. by rewrite append_nil_r.
  - destruct item as [| | | | | |item]; simpl; try apply IH.
    destruct (is_str (get "type" item) "text"); [|apply IH].
    rewrite IH. cbn [fmap list_fmap].
    assert (Hcons : forall x l, String.concat "" (x :: l) = x +:+ String.concat "" l).
    { intros x [|y l]; simpl; [by rewrite append_nil_r | done]. }
    rewrite Hcons. unfold fenced. by rewrite !append_assoc.
Qed.

Lemma get_remove_ne k d : k <> "_msg_type" -> get k (dict_remove "_msg_type" d) = get k d.
Proof. intros Hk. unfold get, get_or. by rewrite dict_get_remove_ne. Qed.

(** C4, as the code has it.  The dispatch looks at the tag and the role
    before the type.  For a record of type [tool_result] that it treats
    neither as a user nor as an assistant message, extraction gives the
    header naming the tool-use identifier, followed by the content in a
    verbatim block when it is a string, and by one verbatim block for each
    text sub-block, in order, when it is a list.  For a record of type
    [tool_result] that it treats as a user or an assistant message, a
    string content is returned as it is, without header or verbatim block. *)
Theorem extract_content_tool_result (m : dict) :
  standalone_tool_result m = true ->
  (dispatches_user m = false -> dispatches_assistant m = false ->
     (forall content, dict_get "content" m = Some (JStr content) ->
        (extract_content m).1 = Ok (Some (tool_result_header m +:+ fenced content)))
     /\ (forall items, dict_get "content" m = Some (JList items) ->
        (extract_content m).1 = Ok (Some (block_per_item_rendering m items))))
  /\ (dispatches_user m = true \/ dispatches_assistant m = true ->
      forall content, dict_get "content" m = Some (JStr content) ->
        (extract_content m).1 = Ok (Some content)).
Proof.
  unfold standalone_tool_result, dispatches_assistant, dispatches_user.
  intros Ht. split.
  - intros Hu Ha. rewrite Hu in Ha. cbn [negb andb] in Ha.
    assert (Hd : forall c, dict_get "content" m = Some c ->
      (extract_content m).1
      = Ok (Some match c with
                 | JStr content => tool_result_header m +:+ fenced content
                 | JList items =>
                     tool_result_items (tool_result_header m) items
                 | _ => tool_result_header m
                 end)).
    { intros c Hc. rewrite extract_content_eq. cbn [fst]. unfold extract_dispatch.
      rewrite !get_remove_ne by done. rewrite Hu, Ha, Ht.
      destruct (is_str (get "type" m) "tool_use") eqn:Htu.
      { unfold get, get_or in Ht, Htu. destruct (default JNull _) as [| | | |s| |];
          try discriminate. simpl in Ht, Htu.
        apply String.eqb_eq in Ht, Htu. congruence. }
      rewrite dict_get_remove_ne by done. rewrite Hc.
      unfold tool_result_header, get_or. rewrite !dict_get_remove_ne by done.
      destruct c; reflexivity. }
    split.
    + intros content Hc. by rewrite (Hd _ Hc).
    + intros items Hc. rewrite (Hd _ Hc). unfold block_per_item_rendering.
      by rewrite tool_result_items_concat.
  - intros Hd content Hc. rewrite extract_content_eq. cbn [fst].
    unfold extract_dispatch. rewrite !get_remove_ne by done.
    assert (Hcontent : forall dflt,
      get_or "content" dflt (dict_remove "_msg_type" m) = JStr content).
    { intros dflt. unfold get_or. rewrite dict_get_remove_ne by done.
      by rewrite Hc. }
    rewrite !Hcontent.
    destruct (is_str _ "user" || is_str (get "role" m) "user"); [reflexivity|].
    cbn [negb andb] in Hd. destruct Hd as [Hd|Hd]; [discriminate|].
    rewrite Hd. reflexivity.
Qed.

End ToolResultProofs.

(** ** Index insertion *)

Lemma translate_newlines_complete l rest :
  complete_line l = true ->
  translate_newlines false (l +:+ rest) = l +:+ translate_newlines false rest.
Proof.
  induction l as [|c r IH]; [discriminate|]. cbn [complete_line].
  rewrite append_cons. cbn [translate_newlines].
  destruct (Ascii.eqb c LF) eqn:Ec.
  - destruct r; [|discriminate]. intros _. apply Ascii.eqb_eq in Ec. subst c.
    reflexivity.
  - intros [Hcr Hr]%andb_prop. apply negb_true_iff in Hcr.
    rewrite Hcr, (IH Hr). reflexivity.
Qed.

Lemma universal_newlines_complete l rest :
  complete_line l = true ->
  universal_newlines (l +:+ rest) = l +:+ universal_newlines rest.
Proof. apply translate_newlines_complete. Qed.

Lemma keepends_complete l rest :
  complete_line l = true -> keepends (l +:+ rest) = l :: keepends rest.
Proof.
  induction l as [|c r IH]; [discriminate|]. cbn [complete_line].
  rewrite append_cons. destruct (Ascii.eqb c LF) eqn:Ec.
  - destruct r; [|discriminate]. intros _. cbn [keepends]. rewrite Ec.
    apply Ascii.eqb_eq in Ec. by subst c.
  - intros [_ Hr]%andb_prop. cbn [keepends]. rewrite Ec, (IH Hr). reflexivity.
Qed.

Lemma universal_newlines_lines lines :
  Forall (fun l => complete_line l = true) lines ->
  universal_newlines (writelines lines) = writelines lines.
Proof.
  unfold writelines. induction 1 as [|l lines Hl _ IH]; [done|].
  by rewrite concat_cons, universal_newlines_complete, IH.
Qed.

(** Complete lines written and read again are the same lines. *)
Lemma readlines_writelines lines :
  Forall (fun l => complete_line l = true) lines ->
  readlines (writelines lines) = lines.
Proof.
  intros Hall. unfold readlines. rewrite (universal_newlines_lines _ Hall).
  unfold writelines. induction Hall as [|l lines Hl _ IH]; [done|].
  by rewrite concat_cons, keepends_complete, IH.
Qed.

Lemma find_marker_bound lines i p :
  find_marker i lines = Some p -> i <= p < i + length lines.
Proof.
  revert i. induction lines as [|l lines IH]; intros i; simpl; [discriminate|].
  destruct (contains _ l).
  - intros [= <-]. lia.
  - intros Hp%IH. lia.
Qed.

(** The marker found is still the first one when the lines after it change. *)
Lemma find_marker_take lines i p n rest :
  find_marker i lines = Some p -> p - i < n ->
  find_marker i (take n lines ++ rest) = Some p.
Proof.
  revert i n. induction lines as [|l lines IH]; intros i n; simpl; [discriminate|].
  destruct (contains _ l) eqn:Hl.
  - intros [= <-] Hn. destruct n; [lia|]. simpl. by rewrite Hl.
  - intros Hp Hn. pose proof (find_marker_bound _ _ _ Hp).
    destruct n; [lia|]. simpl. rewrite Hl. apply IH; [exact Hp | lia].
Qed.

Lemma insert_entry_at lines i entry :
  find_marker 0 lines = Some i ->
  insert_entry lines entry = take (i + 2) lines ++ entry :: drop (i + 2) lines.
Proof. intros Hi. unfold insert_entry, insert_pos, list_insert_at. by rewrite Hi. Qed.

(** One insertion adds one line and keeps the others, in order. *)
Lemma insert_entry_preserves lines entry :
  exists pos,
    insert_entry lines entry = take pos lines ++ entry :: drop pos lines
    /\ length (insert_entry lines entry) = S (length lines).
Proof.
  exists (insert_pos lines). split; [reflexivity|].
  unfold insert_entry, list_insert_at. rewrite length_app. simpl.
  pose proof (length_app (take (insert_pos lines) lines)
                (drop (insert_pos lines) lines)) as Hl.
  rewrite take_drop in Hl. lia.
Qed.

Lemma insert_entry_twice lines i entry1 entry2 :
  find_marker 0 lines = Some i ->
  i + 2 <= length lines ->
  insert_entry (insert_entry lines entry1) entry2
  = take (i + 2) lines ++ entry2 :: entry1 :: drop (i + 2) lines.
Proof.
  intros Hi Hlen. rewrite (insert_entry_at lines i entry1 Hi).
  rewrite (insert_entry_at _ i entry2) by (apply find_marker_take; [exact Hi | lia]).
  rewrite take_app_le by (rewrite length_take; lia).
  rewrite take_take, Nat.min_id.
  rewrite drop_app_ge by (rewrite length_take; lia).
  rewrite length_take, Nat.min_l by lia. by rewrite Nat.sub_diag.
Qed.

Lemma concat_app (l1 l2 : list string) :
  String.concat "" (l1 ++ l2) = String.concat "" l1 +:+ String.concat "" l2.
Proof.
  induction l1 as [|x l1 IH]; [done|].
  rewrite <- app_comm_cons, !concat_cons, IH. by rewrite append_assoc.
Qed.

(** The lines of a text, one after the other, are the text. *)
Lemma keepends_concat s : String.concat "" (keepends s) = s.
Proof.
  induction s as [|c s IH]; [done|]. cbn [keepends].
  destruct (Ascii.eqb c LF) eqn:Ec.
  - apply Ascii.eqb_eq in Ec. subst c. by rewrite concat_cons, IH.
  - destruct (keepends s) as [|l ls]; [by rewrite <- IH|].
    rewrite concat_cons in IH. rewrite concat_cons, append_cons. by rewrite IH.
Qed.

(** The second of two insertions when the marker is the last line: the
    first entry is the last line, the second goes below it. *)
Lemma insert_entry_twice_last lines i entry1 entry2 :
  find_marker 0 lines = Some i ->
  length lines < i + 2 ->
  insert_entry (insert_entry lines entry1) entry2 = lines ++ [entry1; entry2].
Proof.
  intros Hi Hlen. rewrite (insert_entry_at lines i entry1 Hi).
  rewrite (insert_entry_at _ i entry2) by (apply find_marker_take; [exact Hi | lia]).
  rewrite (take_ge lines), (drop_ge lines) by lia.
  pose proof (find_marker_bound _ _ _ Hi) as Hb.
  rewrite take_ge, drop_ge by (rewrite length_app; simpl; lia).
  by rewrite <- app_assoc.
Qed.

(** C2, as the code has it.  The text [update_index] writes is the text it
    read with the entry put in after the second line from the first line
    that contains the marker, or at the end when the text has no such
    second line; no other file changes.  When the lines read and the entry
    are complete lines, the file then has the lines it had and the entry
    as one more line, two lines below the marker, or directly below it
    when the marker was the last line.  After a second call with a
    complete entry, the second entry is at that same place, directly above
    the first; or below the first, when the marker was the last line. *)
Theorem update_index_below_marker (fs : filesystem) (now1 now2 : string)
    (output_dir : PurePath) (session1 session2 : string) (md1 md2 : metadata)
    (content : string) (i : nat) :
  let index := index_path output_dir in
  let lines := readlines content in
  let entry1 := index_entry now1 session1 md1 in
  let entry2 := index_entry now2 session2 md2 in
  let fs1 := update_index fs now1 output_dir session1 md1 in
  let fs2 := update_index fs1 now2 output_dir session2 md2 in
  fs !! index = Some content ->
  find_marker 0 lines = Some i ->
  fs1 = <[index := writelines (take (i + 2) lines) +:+ entry1
                   +:+ writelines (drop (i + 2) lines)]> fs
  /\ writelines (take (i + 2) lines) +:+ writelines (drop (i + 2) lines)
     = universal_newlines content
  /\ (Forall (fun l => complete_line l = true) lines ->
      complete_line entry1 = true ->
      readlines <$> fs1 !! index
      = Some (take (i + 2) lines ++ entry1 :: drop (i + 2) lines)
      /\ (complete_line entry2 = true ->
          (forall path, path <> index -> fs2 !! path = fs !! path)
          /\ readlines <$> fs2 !! index
             = Some (if (i + 2 <=? length lines)%nat
                     then take (i + 2) lines ++ entry2 :: entry1 :: drop (i + 2) lines
                     else lines ++ [entry1; entry2]))).
Proof.
  intros index lines entry1 entry2 fs1 fs2 Hfs Hi.
  assert (H1 : fs1
    = <[index := writelines (take (i + 2) lines ++ entry1 :: drop (i + 2) lines)]> fs).
  { unfold fs1, update_index. fold index. rewrite Hfs. fold lines entry1.
    by rewrite (insert_entry_at lines i entry1 Hi). }
  split.
  { rewrite H1. unfold writelines. by rewrite concat_app, concat_cons. }
  split.
  { unfold writelines. rewrite <- concat_app, take_drop. apply keepends_concat. }
  intros Hlines He1.
  assert (Hall1 : Forall (fun l => complete_line l = true)
                    (take (i + 2) lines ++ entry1 :: drop (i + 2) lines)).
  { apply Forall_app. split; [by apply Forall_take|].
    constructor; [exact He1 | by apply Forall_drop]. }
  split.
  { rewrite H1, lookup_insert_eq. cbn [fmap option_fmap option_map].
    by rewrite readlines_writelines. }
  intros He2.
  assert (H2 : fs2
    = <[index := writelines
          (insert_entry (insert_entry lines entry1) entry2)]> fs).
  { unfold fs2, update_index. fold index. rewrite H1.
    rewrite lookup_insert_eq, insert_insert_eq. fold entry2.
    rewrite readlines_writelines by exact Hall1.
    by rewrite <- (insert_entry_at lines i entry1 Hi). }
  split.
  { intros path Hne. by rewrite H2, lookup_insert_ne. }
  rewrite H2, lookup_insert_eq. cbn [fmap option_fmap option_map]. f_equal.
  destruct (Nat.leb_spec (i + 2) (length lines)) as [Hlen|Hlen].
  - rewrite (insert_entry_twice lines i entry1 entry2 Hi Hlen).
    apply readlines_writelines. apply Forall_app. split; [by apply Forall_take|].
    constructor; [exact He2|]. constructor; [exact He1 | by apply Forall_drop].
  - rewrite (insert_entry_twice_last lines i entry1 entry2 Hi Hlen).
    apply readlines_writelines. apply Forall_app. split; [exact Hlines|].
    by repeat constructor.
Qed.

(** ** Log Reader *)

Section Reader.
Context `{PyLib}.

(** A line that does not decode is skipped. *)
Lemma parse_line_malformed messages line :
  json_loads (strip line) = Raise JSONDecodeError ->
  parse_line messages line = Ok messages.
Proof.
  intros Hd. unfold parse_line. destruct (is_empty (strip line)); [done|].
  by rewrite Hd.
Qed.

(** A line the loop gets past adds its records. *)
Lemma parse_line_passes messages line :
  line_passes line = true ->
  parse_line messages line = Ok (messages ++ line_records line).
Proof.
  unfold line_passes, parse_line, line_records.
  destruct (is_empty (strip line)); [by rewrite app_nil_r|]. simpl.
  destruct (json_loads (strip line)) as [v|e].
  - destruct v as [| | | | | |data]; try discriminate. simpl.
    destruct (is_str (get "type" data) "user" || is_str (get "type" data) "assistant").
    + destruct (dict_get "message" data) as [[]|]; try discriminate;
        by rewrite ?app_nil_r.
    + destruct (_ || _); by rewrite ?app_nil_r.
  - destruct e; try discriminate. by rewrite app_nil_r.
Qed.

(** When every line passes, the result is the records of the lines, in
    the order of the file; blank lines and lines that do not decode
    contribute nothing. *)
Lemma parse_lines_resilient messages lines :
  Forall (fun line => line_passes line = true) lines ->
  parse_lines messages lines = Ok (messages ++ concat (line_records <$> lines)).
Proof.
  intros Hall. revert messages.
  induction Hall as [|line lines Hl _ IH]; intros messages.
  - simpl. by rewrite app_nil_r.
  - simpl. rewrite (parse_line_passes _ _ Hl). simpl. rewrite IH.
    by rewrite <- app_assoc.
Qed.

Lemma parse_transcript_resilient fs transcript_path content :
  fs !! transcript_path = Some content ->
  Forall (fun line => line_passes line = true) (readlines content) ->
  parse_transcript fs transcript_path = concat (line_records <$> readlines content).
Proof.
  intros Hfs Hall. unfold parse_transcript, read_transcript.
  by rewrite Hfs, (parse_lines_resilient _ _ Hall).
Qed.

(** The Log Reader never raises; for a file whose lines all fail to
    decode it returns the empty list. *)
Lemma parse_transcript_only_malformed fs transcript_path content :
  fs !! transcript_path = Some content ->
  Forall (fun line => json_loads (strip line) = Raise JSONDecodeError)
    (readlines content) ->
  parse_transcript fs transcript_path = [].
Proof.
  intros Hfs Hall. unfold parse_transcript, read_transcript. rewrite Hfs.
  assert (Hp : forall messages,
    parse_lines messages (readlines content) = Ok messages).
  { induction Hall as [|line lines Hl _ IH]; intros messages; [done|].
    cbn [parse_lines]. rewrite (parse_line_malformed _ _ Hl). apply IH. }
  by rewrite Hp.
Qed.

Lemma parse_line_breaks messages line v :
  is_empty (strip line) = false ->
  json_loads (strip line) = Ok v ->
  breaks_read v = true ->
  exists e, parse_line messages line = Raise e.
Proof.
  intros Hne Hd Hb. unfold parse_line. rewrite Hne, Hd.
  destruct v as [| | | | | |data]; eauto. simpl in Hb.
  destruct (_ || _); [|done].
  destruct (dict_get "message" data) as [[]|]; try discriminate; eauto.
Qed.

Lemma parse_lines_breaks messages lines line v :
  In line lines ->
  is_empty (strip line) = false ->
  json_loads (strip line) = Ok v ->
  breaks_read v = true ->
  exists e, parse_lines messages lines = Raise e.
Proof.
  intros Hin Hne Hd Hb. revert messages.
  induction lines as [|l lines IH]; intros messages; [destruct Hin|].
  simpl. destruct Hin as [->|Hin].
  - destruct (parse_line_breaks messages line v Hne Hd Hb) as [e ->]. eauto.
  - destruct (parse_line messages l); [by apply IH | eauto].
Qed.

(** C1, where the code departs from it.  One line that decodes to a value
    that is not an object, or to a user or assistant record whose message
    is not an object, makes [parse_transcript] return the empty list: the
    records of every other line of the file are lost. *)
Theorem parse_transcript_aborts_on_non_object (fs : filesystem)
    (transcript_path content line : string) (v : json) :
  fs !! transcript_path = Some content ->
  In line (readlines content) ->
  is_empty (strip line) = false ->
  json_loads (strip line) = Ok v ->
  breaks_read v = true ->
  parse_transcript fs transcript_path = [].
Proof.
  intros Hfs Hin Hne Hd Hb. unfold parse_transcript, read_transcript. rewrite Hfs.
  destruct (parse_lines_breaks [] _ _ _ Hin Hne Hd Hb) as [e ->].
  by destruct e.
Qed.

End Reader.

(** ** [main]: completion codes *)

Section Main.
Context `{PyLib}.

Lemma main_cli_outcome inv fs :
  match parse_args (argv inv) with
  | inr status => status = 2%Z /\ main_cli inv fs = (SysExit 2, fs)
  | inl (session_id, transcript, output, cwd) =>
      match parse_transcript fs transcript with
      | [] => main_cli inv fs = (Return 1, fs)
      | _ :: _ =>
          (exists fs', main_cli inv fs = (Return 0, fs'))
          \/ (exists e, main_cli inv fs = (Uncaught e, fs))
      end
  end.
Proof.
  unfold main_cli.
  destruct (parse_args (argv inv)) as [[[[session_id transcript] output] cwd]|status] eqn:Ea.
  - destruct (parse_transcript fs transcript) as [|m messages]; [done|].
    destruct (export _ _ _ _ _ _); eauto.
  - unfold parse_args in Ea.
    destruct (arg_session_id (argv inv)), (arg_transcript (argv inv)),
      (arg_output (argv inv)); by inversion Ea.
Qed.

Lemma parse_args_missing args :
  missing_required args = true <-> exists status, parse_args args = inr status.
Proof.
  unfold missing_required, parse_args.
  destruct (arg_session_id args), (arg_transcript args), (arg_output args);
    split; (by eauto) || (by intros [? [=]]) || done.
Qed.

Lemma main_hook_outcome inv fs :
  if payload_refused inv then main_hook inv fs = (Return 1, fs)
  else (exists fs', main_hook inv fs = (Return 0, fs'))
       \/ (exists e, main_hook inv fs = (Uncaught e, fs)).
Proof.
  unfold payload_refused, main_hook.
  destruct (stdin_json inv) as [hook_data|e].
  - destruct (is_empty _ || is_empty _); [done|].
    destruct (already_exported _ _ _); [eauto|].
    match goal with |- context [match ?x with Ok _ => _ | Raise _ => _ end] =>
      destruct x end; eauto.
  - destruct e; eauto.
Qed.

(** C9, as the code has it.  [main] returns 1 exactly when, in hook mode,
    the payload does not decode or lacks a session identifier or a working
    directory, or when, in command-line mode with every required option
    given, the transcript yields no record; a required option that is
    missing in command-line mode ends the process with status 2; every
    other value [main] returns is 0. *)
Theorem main_completion_codes (inv : invocation) (fs : filesystem) :
  ((main inv fs).1 = Return 1 <->
     if hook_mode inv then payload_refused inv = true
     else exists session_id transcript output cwd,
         parse_args (argv inv) = inl (session_id, transcript, output, cwd)
         /\ parse_transcript fs transcript = [])
  /\ ((main inv fs).1 = SysExit 2 <->
        hook_mode inv = false /\ missing_required (argv inv) = true)
  /\ (forall code, (main inv fs).1 = Return code -> code = 0%Z \/ code = 1%Z)
  /\ (forall code, (main inv fs).1 = SysExit code -> code = 2%Z).
Proof.
  unfold main, hook_mode.
  destruct (no_arguments (argv inv) && negb (stdin_isatty inv)).
  - pose proof (main_hook_outcome inv fs) as Hh.
    destruct (payload_refused inv).
    + rewrite Hh. cbn [fst]. split; [done|]. split; [|split].
      * split; [done | by intros [? _]].
      * intros code [= <-]. by right.
      * done.
    + assert (Hne : forall o, (main_hook inv fs).1 = o ->
                (exists e, o = Uncaught e) \/ o = Return 0).
      { intros o <-. destruct Hh as [[fs' ->]|[e ->]]; eauto. }
      split; [|split; [|split]].
      * split; [by intros [[e [=]]|[=]]%Hne | done].
      * split; [by intros [[e [=]]|[=]]%Hne | by intros [? _]].
      * intros code [[e [=]]|[= <-]]%Hne. by left.
      * by intros code [[e [=]]|[=]]%Hne.
  - pose proof (main_cli_outcome inv fs) as Hc.
    pose proof (parse_args_missing (argv inv)) as Hm.
    destruct (parse_args (argv inv)) as [[[[session_id transcript] output] cwd]|status].
    + assert (Hnm : missing_required (argv inv) = false).
      { destruct (missing_required (argv inv)); [|done].
        destruct (proj1 Hm eq_refl) as [? [=]]. }
      rewrite Hnm.
      destruct (parse_transcript fs transcript) as [|m messages] eqn:Hp.
      * rewrite Hc. cbn [fst]. split; [|split; [|split]].
        -- split; [|done]. intros _. by exists session_id, transcript, output, cwd.
        -- split; [done | by intros [_ ?]].
        -- intros code [= <-]. by right.
        -- done.
      * assert (Hne : forall o, (main_cli inv fs).1 = o ->
                  (exists e, o = Uncaught e) \/ o = Return 0).
        { intros o <-. destruct Hc as [[fs' ->]|[e ->]]; eauto. }
        split; [|split; [|split]].
        -- split; [by intros [[e [=]]|[=]]%Hne|].
           intros (s & t & o & c & [= <- <- <- <-] & Hp'). congruence.
        -- split; [by intros [[e [=]]|[=]]%Hne | by intros [_ ?]].
        -- intros code [[e [=]]|[= <-]]%Hne. by left.
        -- by intros code [[e [=]]|[=]]%Hne.
    + destruct Hc as [-> Hc]. rewrite Hc. cbn [fst]. split; [|split; [|split]].
      * split; [done|]. by intros (s & t & o & c & [=] & _).
      * split; [|done]. intros _. split; [done|]. apply Hm. eauto.
      * done.
      * by intros code [= <-].
Qed.

End Main.

(** ** [main]: the guard of hook mode *)

Lemma prefix_append n post : String.prefix n (n +:+ post) = true.
Proof.
  induction n as [|c n IH]; [by destruct post|].
  rewrite append_cons. simpl. by destruct (ascii_dec c c).
Qed.

Lemma contains_prefix n h : String.prefix n h = true -> contains n h = true.
Proof. intros Hp. destruct h; cbn [contains]; by rewrite Hp. Qed.

Lemma contains_append_l pre n h : contains n h = true -> contains n (pre +:+ h) = true.
Proof.
  intros Hc. induction pre as [|c pre IH]; [exact Hc|].
  rewrite append_cons. cbn [contains]. rewrite IH. apply orb_true_r.
Qed.

(** A text occurs in every text built around it. *)
Lemma contains_middle pre n post : contains n (pre +:+ n +:+ post) = true.
Proof. apply contains_append_l, contains_prefix, prefix_append. Qed.

Lemma translate_newlines_app after_cr a b :
  translate_newlines after_cr (a +:+ b)
  = translate_newlines after_cr a +:+ translate_newlines (ends_with_cr after_cr a) b.
Proof.
  revert after_cr. induction a as [|c a IH]; intros after_cr; [done|].
  rewrite append_cons. cbn [translate_newlines ends_with_cr].
  destruct (Ascii.eqb c CR) eqn:Ecr.
  - by rewrite IH.
  - destruct (Ascii.eqb c LF); [destruct after_cr|]; by rewrite IH.
Qed.

Lemma translate_newlines_single_line after_cr s rest :
  single_line s = true -> is_empty s = false ->
  translate_newlines after_cr (s +:+ rest) = s +:+ translate_newlines false rest.
Proof.
  revert after_cr. induction s as [|c s IH]; intros after_cr; [discriminate|].
  cbn [single_line]. intros [[Hlf Hcr]%andb_prop Hs]%andb_prop _.
  apply negb_true_iff in Hlf, Hcr.
  rewrite append_cons. cbn [translate_newlines]. rewrite Hcr, Hlf.
  destruct s as [|c' s'].
  - reflexivity.
  - by rewrite (IH false Hs eq_refl).
Qed.

Lemma In_concat_split (l : string) (ls : list string) :
  In l ls -> exists pre post, String.concat "" ls = pre +:+ l +:+ post.
Proof.
  induction ls as [|x ls IH]; [intros []|]. rewrite concat_cons.
  intros [->|Hin].
  - by exists "", (String.concat "" ls).
  - destruct (IH Hin) as (pre & post & ->). exists (x +:+ pre), post.
    by rewrite append_assoc.
Qed.

Section Guard.
Context `{PyLib}.

(** The guard: a session identifier that occurs anywhere in the text of
    the marker file ends the run at once, with code 0 and no file written. *)
Lemma main_hook_guard inv fs hook_data content :
  stdin_json inv = Ok hook_data ->
  is_empty (default "" (hook_data !! "session_id")) = false ->
  is_empty (default "" (hook_data !! "cwd")) = false ->
  fs !! state_file_of (default "" (hook_data !! "cwd")) = Some content ->
  contains (default "" (hook_data !! "session_id")) (universal_newlines content) = true ->
  main_hook inv fs = (Return 0, fs).
Proof.
  intros Hd Hs Hc Hfs Hin. unfold main_hook. rewrite Hd, Hs, Hc. cbn [orb].
  unfold already_exported. unfold state_file_of in Hfs.
  rewrite <- append_assoc in Hfs. by rewrite Hfs, Hin.
Qed.

(** A session identifier recorded as a line of the marker file ends the
    run at once. *)
Lemma main_hook_recorded inv fs hook_data content :
  stdin_json inv = Ok hook_data ->
  is_empty (default "" (hook_data !! "session_id")) = false ->
  is_empty (default "" (hook_data !! "cwd")) = false ->
  fs !! state_file_of (default "" (hook_data !! "cwd")) = Some content ->
  In (default "" (hook_data !! "session_id") +:+ nl) (readlines content) ->
  main_hook inv fs = (Return 0, fs).
Proof.
  intros Hd Hs Hc Hfs Hin. eapply main_hook_guard; eauto.
  unfold readlines in Hin. apply In_concat_split in Hin as (pre & post & Heq).
  rewrite keepends_concat in Heq. rewrite Heq, append_assoc.
  apply contains_middle.
Qed.

(** A run that returned 0 has left the session identifier in the marker
    file, so a second run with the same input ends at the guard and
    writes nothing, when the identifier holds no line ending. *)
Lemma main_hook_at_most_once inv fs fs' hook_data :
  stdin_json inv = Ok hook_data ->
  single_line (default "" (hook_data !! "session_id")) = true ->
  main_hook inv fs = (Return 0, fs') ->
  main_hook inv fs' = (Return 0, fs').
Proof.
  intros Hd Hsl Hrun. unfold main_hook in Hrun |- *. rewrite Hd in Hrun |- *.
  destruct (is_empty _ || is_empty _) eqn:He; [done|].
  apply orb_false_elim in He as [Hs Hc].
  destruct (already_exported fs _ _) eqn:Ha.
  { injection Hrun as <-. by rewrite Ha. }
  match type of Hrun with
  | match ?x with Ok _ => _ | Raise _ => _ end = _ => destruct x as [fs1|e]
  end; [|done].
  injection Hrun as <-.
  assert (Hex : already_exported
            (record_exported fs1
               ((default "" (hook_data !! "cwd") +:+ "/.claude/history")
                +:+ "/.exported_state")
               (default "" (hook_data !! "session_id")))
            ((default "" (hook_data !! "cwd") +:+ "/.claude/history")
             +:+ "/.exported_state")
            (default "" (hook_data !! "session_id")) = true).
  { unfold already_exported, record_exported. rewrite lookup_insert_eq.
    unfold universal_newlines. rewrite translate_newlines_app.
    rewrite (translate_newlines_single_line _ _ _ Hsl Hs).
    apply contains_middle. }
  by rewrite Hex.
Qed.

End Guard.

(** * Further properties of the code *)

(** ** Log Reader: order, skipped lines, shape of the records *)

Lemma dict_get_set k v d : dict_get k (dict_set k v d) = Some v.
Proof.
  induction d as [|[k' v'] d IH]; simpl.
  - by rewrite String.eqb_refl.
  - destruct (String.eqb k k') eqn:E; simpl; by rewrite E.
Qed.

Section ReaderMore.
Context `{PyLib}.

Lemma parse_lines_app messages lines1 lines2 :
  parse_lines messages (lines1 ++ lines2)
  = (messages' ← parse_lines messages lines1; parse_lines messages' lines2).
Proof.
  revert messages. induction lines1 as [|line lines1 IH]; intros messages; [done|].
  simpl. destruct (parse_line messages line); [apply IH | done].
Qed.

Lemma parse_line_skipped messages line :
  line_skipped line = true -> parse_line messages line = Ok messages.
Proof.
  unfold line_skipped, parse_line. destruct (is_empty (strip line)); [done|].
  simpl. destruct (json_loads (strip line)) as [v|[]]; by try discriminate.
Qed.

(** When every line of the file is blank, fails to decode, or decodes to an
    object whose message (for a user or assistant record) is absent or an
    object, [parse_transcript] returns the records of the lines in the
    order of the file: the tagged message of each user or assistant line
    that has one, each tool-use or tool-result line as it is, and nothing
    for the other lines. *)
Theorem parse_transcript_in_file_order (fs : filesystem)
    (transcript_path content : string) :
  fs !! transcript_path = Some content ->
  Forall (fun line => line_passes line = true) (readlines content) ->
  parse_transcript fs transcript_path
  = concat (line_records <$> readlines content).
Proof.
  intros Hfs Hall. unfold parse_transcript, read_transcript.
  by rewrite Hfs, (parse_lines_resilient _ _ Hall).
Qed.

(** A blank line and a line that does not decode have no effect on what
    [parse_transcript] returns: two files whose lines differ by one such
    line give the same records. *)
Theorem parse_transcript_skips_line (fs1 fs2 : filesystem)
    (path1 path2 content1 content2 : string) (before after : list string)
    (line : string) :
  fs1 !! path1 = Some content1 ->
  fs2 !! path2 = Some content2 ->
  readlines content1 = before ++ line :: after ->
  readlines content2 = before ++ after ->
  line_skipped line = true ->
  parse_transcript fs1 path1 = parse_transcript fs2 path2.
Proof.
  intros Hfs1 Hfs2 Hl1 Hl2 Hskip. unfold parse_transcript, read_transcript.
  rewrite Hfs1, Hfs2, Hl1, Hl2, !parse_lines_app.
  destruct (parse_lines [] before) as [messages|e]; [|done].
  cbn [mbind result_bind parse_lines].
  by rewrite (parse_line_skipped _ _ Hskip).
Qed.

Lemma parse_line_reader_records messages messages' line :
  Forall (fun m => reader_record m = true) messages ->
  parse_line messages line = Ok messages' ->
  Forall (fun m => reader_record m = true) messages'.
Proof.
  intros Hall. unfold parse_line.
  destruct (is_empty (strip line)); [by intros [= <-]|].
  destruct (json_loads (strip line)) as [v|e].
  - destruct v as [| | | | | |data]; try discriminate.
    destruct (is_str (get "type" data) "user" || is_str (get "type" data) "assistant")
      eqn:Hkind.
    + destruct (dict_get "message" data) as [[| | | | | |msg_data]|];
        try discriminate; intros [= <-]; [|exact Hall].
      apply Forall_app. split; [exact Hall|]. constructor; [|constructor].
      unfold reader_record, get, get_or. unfold get, get_or in Hkind.
      rewrite dict_get_set. simpl. by rewrite Hkind.
    + destruct (is_str (get "type" data) "tool_use"
                || is_str (get "type" data) "tool_result") eqn:Htool;
        intros [= <-]; [|exact Hall].
      apply Forall_app. split; [exact Hall|]. constructor; [|constructor].
      unfold reader_record. rewrite <- orb_assoc, Htool. apply orb_true_r.
  - destruct e; try discriminate. by intros [= <-].
Qed.

Lemma parse_lines_reader_records lines messages messages' :
  Forall (fun m => reader_record m = true) messages ->
  parse_lines messages lines = Ok messages' ->
  Forall (fun m => reader_record m = true) messages'.
Proof.
  revert messages. induction lines as [|line lines IH]; intros messages Hall.
  - by intros [= <-].
  - cbn [parse_lines]. destruct (parse_line messages line) as [ms|e] eqn:E;
      [|discriminate].
    apply IH. by eapply parse_line_reader_records.
Qed.

(** Whatever the file holds, every record [parse_transcript] returns is a
    message carrying the tag [_msg_type] with value [user] or [assistant],
    or a record whose [type] is [tool_use] or [tool_result]. *)
Theorem parse_transcript_reader_records (fs : filesystem) (transcript_path : string) :
  Forall (fun m => reader_record m = true) (parse_transcript fs transcript_path).
Proof.
  unfold parse_transcript, read_transcript.
  destruct (fs !! transcript_path) as [content|]; [|constructor].
  destruct (parse_lines [] (readlines content)) as [messages|e] eqn:E.
  - eapply parse_lines_reader_records; [constructor | exact E].
  - destruct e; constructor.
Qed.

End ReaderMore.

(** ** Content Extractor: when it returns, when it raises *)

Lemma rstrip_idem s : rstrip (rstrip s) = rstrip s.
Proof.
  induction s as [|c r IH]; [done|]. cbn [rstrip].
  destruct (rstrip r) as [|c' r'] eqn:E.
  - destruct (isspace c) eqn:Ec; [done|]. cbn [rstrip]. by rewrite Ec.
  - cbn [rstrip]. cbn [rstrip] in IH. by rewrite IH.
Qed.

(** Trimming a trimmed text changes nothing. *)
Lemma strip_idem s : strip (strip s) = strip s.
Proof.
  unfold strip. destruct (rstrip (lstrip s)) as [|a r] eqn:E; [done|].
  pose proof (strip_head s a r E) as Ha.
  cbn [lstrip]. rewrite Ha, <- E. apply rstrip_idem.
Qed.

Section ExtractMore.
Context `{PyLib}.

Lemma all_str_strings texts :
  Forall (fun v => is_string v = true) texts -> exists l, all_str texts = Ok l.
Proof.
  induction 1 as [|v texts Hv _ [l IH]]; [by exists []|].
  destruct v; try discriminate. simpl. rewrite IH. eauto.
Qed.

Lemma all_str_not_strings texts :
  ~ Forall (fun v => is_string v = true) texts -> all_str texts = Raise TypeError.
Proof.
  induction texts as [|v texts IH]; intros Hn; [by destruct Hn|].
  destruct v; try reflexivity. simpl. rewrite IH; [done|].
  intros Hall. apply Hn. by constructor.
Qed.

Lemma text_items_strings items :
  Forall (fun v => is_string v = true) (text_items items)
  <-> forallb text_well_typed items = true.
Proof.
  induction items as [|item items IH]; [done|].
  destruct item as [| | | | | |item]; try exact IH.
  cbn [text_items forallb text_well_typed].
  destruct (is_str (get "type" item) "text"); [|exact IH].
  rewrite Forall_cons, andb_true_iff. by rewrite IH.
Qed.

(** What one block of a user message adds to [texts]: strings only when
    the block is well typed; otherwise an exception, or a value that is
    not a string. *)
Lemma user_block_adds texts block :
  if user_block_well_typed block
  then exists new, user_block texts block = Ok (texts ++ new)
         /\ Forall (fun v => is_string v = true) new
  else (exists e, user_block texts block = Raise e)
       \/ exists new, user_block texts block = Ok (texts ++ new)
            /\ ~ Forall (fun v => is_string v = true) new.
Proof.
  destruct block as [| | | | s | |block]; cbn [user_block_well_typed user_block];
    try (exists []; by rewrite app_nil_r).
  { exists [JStr s]. split; [done|]. by repeat constructor. }
  destruct (is_str (get "type" block) "text").
  { destruct (is_string (get_or "text" (JStr "") block)) eqn:Ht.
    - eexists. split; [reflexivity|]. by repeat constructor.
    - right. eexists. split; [reflexivity|]. intros Hall.
      apply Forall_cons in Hall as [Hx _]. congruence. }
  destruct (is_str (get "type" block) "image").
  { destruct (get_or "source" (JDict []) block); eauto. }
  destruct (is_str (get "type" block) "tool_result");
    [|exists []; by rewrite app_nil_r].
  destruct (dict_get "content" block) as [[| | | | s |items|]|];
    try (eexists; split; [reflexivity|]; by repeat constructor).
  - exists [JStr ("[Tool Result: "
                  +:+ py_str (get_or "tool_use_id" (JStr "unknown") block) +:+ "]");
            JStr s].
    split; [by rewrite <- app_assoc|]. by repeat constructor.
  - destruct (forallb text_well_typed items) eqn:Hi.
    + eexists. split; [by rewrite <- app_assoc|].
      constructor; [done|]. by apply text_items_strings.
    + right. eexists. split; [by rewrite <- app_assoc|].
      intros Hall. apply Forall_cons in Hall as [_ Hall].
      apply text_items_strings in Hall. congruence.
Qed.

(** The same for one block of an assistant message, which never raises. *)
Lemma assistant_block_adds texts block :
  exists new, assistant_block texts block = Ok (texts ++ new)
    /\ (Forall (fun v => is_string v = true) new
        <-> text_well_typed block = true).
Proof.
  destruct block as [| | | | s | |block]; cbn [text_well_typed assistant_block];
    try (exists []; by rewrite app_nil_r).
  { exists [JStr s]. split; [done|]. split; [done|]. by repeat constructor. }
  destruct (is_str (get "type" block) "text").
  { eexists. split; [reflexivity|]. rewrite Forall_cons. split; [by intros [? _]|].
    intros Ht. split; [exact Ht | constructor]. }
  destruct (is_str (get "type" block) "tool_use");
    [|exists []; by rewrite app_nil_r].
  destruct (dict_get "input" block) as [input_data|].
  - destruct (input_block input_data).
    + eexists. split; [by rewrite <- app_assoc|]. split; [done|].
      intros _. by repeat constructor.
    + eexists. split; [reflexivity|]. split; [done|]. intros _. by repeat constructor.
  - eexists. split; [reflexivity|]. split; [done|]. intros _. by repeat constructor.
Qed.

Lemma user_blocks_loop content texts :
  if forallb user_block_well_typed content
  then exists new, blocks_loop user_block texts content = Ok (texts ++ new)
         /\ Forall (fun v => is_string v = true) new
  else (exists e, blocks_loop user_block texts content = Raise e)
       \/ exists new, blocks_loop user_block texts content = Ok (texts ++ new)
            /\ ~ Forall (fun v => is_string v = true) new.
Proof.
  revert texts. induction content as [|block content IH]; intros texts.
  - exists []. by rewrite app_nil_r.
  - cbn [forallb blocks_loop]. pose proof (user_block_adds texts block) as Hb.
    destruct (user_block_well_typed block).
    + destruct Hb as (new & -> & Hnew). cbn [mbind result_bind andb].
      specialize (IH (texts ++ new)).
      destruct (forallb user_block_well_typed content).
      * destruct IH as (new' & -> & Hnew'). exists (new ++ new').
        split; [by rewrite app_assoc | by apply Forall_app].
      * destruct IH as [[e ->]|(new' & -> & Hnew')]; [eauto|].
        right. exists (new ++ new'). split; [by rewrite app_assoc|].
        intros [_ ?]%Forall_app. done.
    + cbn [andb]. destruct Hb as [[e ->]|(new & -> & Hnew)]; [eauto|].
      cbn [mbind result_bind]. specialize (IH (texts ++ new)).
      destruct (forallb user_block_well_typed content).
      * destruct IH as (new' & -> & _). right. exists (new ++ new').
        split; [by rewrite app_assoc|]. intros [? _]%Forall_app. done.
      * destruct IH as [[e ->]|(new' & -> & Hnew')]; [eauto|].
        right. exists (new ++ new'). split; [by rewrite app_assoc|].
        intros [? _]%Forall_app. done.
Qed.

Lemma assistant_blocks_loop content texts :
  exists new, blocks_loop assistant_block texts content = Ok (texts ++ new)
    /\ (Forall (fun v => is_string v = true) new
        <-> forallb text_well_typed content = true).
Proof.
  revert texts. induction content as [|block content IH]; intros texts.
  - exists []. by rewrite app_nil_r.
  - cbn [forallb blocks_loop].
    destruct (assistant_block_adds texts block) as (new & -> & Hnew).
    cbn [mbind result_bind].
    destruct (IH (texts ++ new)) as (new' & -> & Hnew').
    exists (new ++ new'). split; [by rewrite app_assoc|].
    rewrite Forall_app, andb_true_iff. by rewrite Hnew, Hnew'.
Qed.

Lemma join_texts_strings texts :
  Forall (fun v => is_string v = true) texts ->
  exists text, join_texts texts = Ok text /\ strip text = text.
Proof.
  intros [l Hl]%all_str_strings. unfold join_texts. rewrite Hl.
  eexists. split; [reflexivity|]. apply strip_idem.
Qed.

Lemma join_texts_not_strings texts :
  ~ Forall (fun v => is_string v = true) texts -> join_texts texts = Raise TypeError.
Proof. intros Hn. unfold join_texts. by rewrite (all_str_not_strings _ Hn). Qed.

Lemma extract_content_user m :
  dispatches_user m = true ->
  (extract_content m).1
  = match get_or "content" (JStr "") m with
    | JList content =>
        texts ← blocks_loop user_block [] content;
        text ← join_texts texts;
        mret (Some text)
    | content => Ok (Some (py_str content))
    end.
Proof.
  intros Hu. rewrite extract_content_eq. cbn [fst]. unfold extract_dispatch.
  rewrite get_remove_ne by done. unfold dispatches_user in Hu. rewrite Hu.
  unfold get_or. by rewrite dict_get_remove_ne.
Qed.

Lemma extract_content_assistant m :
  dispatches_assistant m = true ->
  (extract_content m).1
  = match get_or "content" (JList []) m with
    | JList content =>
        texts ← blocks_loop assistant_block [] content;
        text ← join_texts texts;
        mret (Some text)
    | content => Ok (Some (py_str content))
    end.
Proof.
  unfold dispatches_assistant, dispatches_user.
  intros [Hu%negb_true_iff Ha]%andb_prop.
  rewrite extract_content_eq. cbn [fst]. unfold extract_dispatch.
  rewrite get_remove_ne by done. rewrite Hu, Ha.
  unfold get_or. by rewrite dict_get_remove_ne.
Qed.

(** On a user message whose content is a list of blocks, [extract_content]
    returns a text exactly when every block is well typed, and the text it
    returns is trimmed; on a block that is not well typed it raises an
    exception. *)
Theorem extract_content_user_blocks (m : dict) (content : list json) :
  dispatches_user m = true ->
  get_or "content" (JStr "") m = JList content ->
  if forallb user_block_well_typed content
  then exists text, (extract_content m).1 = Ok (Some text) /\ strip text = text
  else exists e, (extract_content m).1 = Raise e.
Proof.
  intros Hu Hc. rewrite (extract_content_user m Hu), Hc.
  pose proof (user_blocks_loop content []) as Hl.
  destruct (forallb user_block_well_typed content).
  - destruct Hl as (new & -> & Hnew). cbn [mbind result_bind app].
    destruct (join_texts_strings new Hnew) as (text & -> & Ht). eauto.
  - destruct Hl as [[e ->]|(new & -> & Hnew)]; [eauto|].
    cbn [mbind result_bind app]. rewrite (join_texts_not_strings new Hnew). eauto.
Qed.

(** On an assistant message whose content is a list of blocks,
    [extract_content] returns a trimmed text when the text of every text
    block is a string, and raises [TypeError] otherwise; a tool-use block
    never makes it raise. *)
Theorem extract_content_assistant_blocks (m : dict) (content : list json) :
  dispatches_assistant m = true ->
  get_or "content" (JList []) m = JList content ->
  if forallb text_well_typed content
  then exists text, (extract_content m).1 = Ok (Some text) /\ strip text = text
  else (extract_content m).1 = Raise TypeError.
Proof.
  intros Ha Hc. rewrite (extract_content_assistant m Ha), Hc.
  destruct (assistant_blocks_loop content []) as (new & -> & Hnew).
  cbn [mbind result_bind app].
  destruct (forallb text_well_typed content).
  - destruct (join_texts_strings new) as (text & -> & Ht); [by apply Hnew | eauto].
  - rewrite (join_texts_not_strings new); [done|].
    intros Hall. apply Hnew in Hall. discriminate.
Qed.

(** A record that takes neither the user nor the assistant branch never
    makes [extract_content] raise: it gives a text when its type is
    [tool_use] or [tool_result], and nothing otherwise. *)
Theorem extract_content_other_records (m : dict) :
  dispatches_user m = false ->
  dispatches_assistant m = false ->
  exists r, (extract_content m).1 = Ok r
    /\ (r = None <->
        is_str (get "type" m) "tool_use" || is_str (get "type" m) "tool_result"
        = false).
Proof.
  unfold dispatches_assistant, dispatches_user. intros Hu Ha.
  rewrite Hu in Ha. cbn [negb andb] in Ha.
  rewrite extract_content_eq. cbn [fst]. unfold extract_dispatch.
  rewrite !get_remove_ne by done. rewrite Hu, Ha.
  destruct (is_str (get "type" m) "tool_use").
  { destruct (dict_get "input" _) as [input_data|];
      [destruct (input_block input_data)|]; eexists; (split; [reflexivity|]);
      split; discriminate. }
  destruct (is_str (get "type" m) "tool_result").
  { destruct (dict_get "content" _) as [[]|]; eexists; (split; [reflexivity|]);
      split; discriminate. }
  by exists None.
Qed.

End ExtractMore.

(** ** Title inference: shape of the title, records it looks at *)

Lemma length_append a b :
  String.length (a +:+ b) = String.length a + String.length b.
Proof.
  induction a as [|c a IH]; [done|]. rewrite append_cons. simpl. by rewrite IH.
Qed.

Lemma length_substring_le n m s : String.length (substring n m s) <= m.
Proof.
  revert n m. induction s as [|c s IH]; intros [|n] [|m]; simpl; try lia.
  - specialize (IH 0 m). lia.
  - apply (IH n 0).
  - apply (IH n (S m)).
Qed.

Lemma no_line_feed_append a b :
  no_line_feed (a +:+ b) = no_line_feed a && no_line_feed b.
Proof.
  induction a as [|c a IH]; [done|]. rewrite append_cons. simpl.
  by rewrite IH, andb_assoc.
Qed.

Lemma no_line_feed_substring n m s :
  no_line_feed s = true -> no_line_feed (substring n m s) = true.
Proof.
  revert n m. induction s as [|c s IH]; intros [|n] [|m]; simpl; try done.
  - intros [-> Hs]%andb_prop. simpl. by apply IH.
  - intros [_ Hs]%andb_prop. by apply IH.
  - intros [_ Hs]%andb_prop. by apply IH.
Qed.

Lemma no_line_feed_lstrip s : no_line_feed s = true -> no_line_feed (lstrip s) = true.
Proof.
  induction s as [|c s IH]; [done|]. simpl. destruct (isspace c); [|done].
  intros [_ Hs]%andb_prop. by apply IH.
Qed.

Lemma no_line_feed_rstrip s : no_line_feed s = true -> no_line_feed (rstrip s) = true.
Proof.
  induction s as [|c s IH]; [done|]. cbn [no_line_feed rstrip].
  intros [Hc Hs]%andb_prop. specialize (IH Hs).
  destruct (rstrip s) as [|c' r'].
  - destruct (isspace c); [done|]. simpl. by rewrite Hc.
  - change (negb (Ascii.eqb c LF) && no_line_feed (String c' r') = true).
    by rewrite Hc, IH.
Qed.

Lemma no_line_feed_first_line s : no_line_feed (split_nl_first s) = true.
Proof.
  induction s as [|c s IH]; [done|]. simpl.
  destruct (Ascii.eqb c LF) eqn:E; [done|]. simpl. by rewrite E, IH.
Qed.

Lemma is_empty_length s : is_empty s = false -> 0 < String.length s.
Proof. destruct s; [done|]. simpl. lia. Qed.

(** The title a content gives is one line of 1 to 50 characters. *)
Lemma title_of_content_shape content title :
  title_of_content content = Some title ->
  0 < String.length title <= 50 /\ no_line_feed title = true.
Proof.
  unfold title_of_content. destruct content as [c|]; [|done].
  destruct (is_empty c); [done|].
  destruct (existsb _ _); [done|].
  destruct (String.length (strip c) <? 20)%nat; [done|].
  set (first_line := strip (split_nl_first (strip c))).
  assert (Hlf : no_line_feed first_line = true).
  { apply no_line_feed_rstrip, no_line_feed_lstrip, no_line_feed_first_line. }
  destruct (50 <? String.length first_line)%nat eqn:Hlen.
  - intros [= <-]. rewrite length_append, no_line_feed_append.
    pose proof (length_substring_le 0 47 first_line).
    unfold slice. simpl String.length. simpl (47 - 0).
    split; [lia|]. by rewrite no_line_feed_substring.
  - destruct (is_empty first_line) eqn:He; [done|]. intros [= <-].
    apply Nat.ltb_ge in Hlen. apply is_empty_length in He. by split; [lia|].
Qed.

Section TitleMore.
Context `{PyLib}.

Lemma title_loop_found messages title :
  (title_loop messages).1 = Ok (Some title) ->
  exists content, title_of_content content = Some title.
Proof.
  induction messages as [|m rest IH]; [done|]. cbn [title_loop].
  destruct (is_str (get "role" m) "user").
  - destruct (extract_content m) as [[content|e] m']; [|done].
    destruct (title_of_content content) as [t|] eqn:Ht.
    + intros [= <-]. eauto.
    + destruct (title_loop rest). exact IH.
  - destruct (title_loop rest). exact IH.
Qed.

(** Whenever [generate_title] returns, the title is not empty and has at
    most 50 characters; and it is either the default title or a text
    without line feed. *)
Theorem generate_title_shape (messages : list dict) (session_id title : string) :
  (generate_title messages session_id).1 = Ok title ->
  0 < String.length title <= 50
  /\ (title = "Conversation " +:+ substring 0 8 session_id
      \/ no_line_feed title = true).
Proof.
  rewrite generate_title_fst.
  destruct (title_loop messages).1 as [[t|]|e] eqn:Hl; [| |done].
  - intros [= <-]. apply title_loop_found in Hl as [content Hc].
    apply title_of_content_shape in Hc as [? ?]. eauto.
  - intros [= <-]. split; [|by left].
    unfold default_title, slice. rewrite length_append.
    pose proof (length_substring_le 0 (8 - 0) session_id).
    simpl String.length at 1 3. simpl (8 - 0) in *. lia.
Qed.

(** Records that are not of the user role play no part in the title:
    [generate_title] returns the same on the list and on its user-role
    records alone. *)
Theorem generate_title_user_records_only (messages : list dict) (session_id : string) :
  (generate_title messages session_id).1
  = (generate_title (List.filter is_user messages) session_id).1.
Proof.
  rewrite !generate_title_fst. f_equal.
  induction messages as [|m rest IH]; [done|]. cbn [List.filter title_loop].
  unfold is_user at 1. destruct (is_str (get "role" m) "user") eqn:Hu.
  - cbn [title_loop]. rewrite Hu.
    destruct (extract_content m) as [[content|e] m']; [|done].
    destruct (title_of_content content); [done|].
    destruct (title_loop rest), (title_loop (List.filter is_user rest)). exact IH.
  - destruct (title_loop rest). exact IH.
Qed.

End TitleMore.

(** ** Tag inference: tags come from keywords, case does not matter *)

Lemma first_match_from_found all_text table i tag p :
  first_match_from i table all_text tag = Some p ->
  exists row, In row table /\ hit all_text row tag = true.
Proof.
  revert i. induction table as [|row table IH]; intros i; [done|]. simpl.
  destruct (hit all_text row tag) eqn:Hrow.
  - intros _. exists row. by split; [left|].
  - intros (row' & Hin & Hhit)%IH. exists row'. by split; [right|].
Qed.

Lemma is_empty_lower s : is_empty (lower s) = is_empty s.
Proof. by destruct s. Qed.

(** The text a content adds, from its lower-cased form. *)
Lemma text_of_lower content :
  text_of content
  = match option_map lower content with
    | Some (String c r) => String c r +:+ " "
    | _ => ""
    end.
Proof. by destruct content as [[|c r]|]. Qed.

Section TagsMore.
Context `{PyLib}.

(** Every tag [extract_tags] returns is the tag of a keyword of the table
    that occurs in the text it collected: no tag is made up. *)
Theorem extract_tags_from_keywords (messages : list dict) (all_text : string)
    (messages' : list dict) (tags : list string) (tag : string) :
  collect_text "" messages = (Ok all_text, messages') ->
  (extract_tags messages).1 = Ok tags ->
  In tag tags ->
  exists keyword,
    In (keyword, tag) keywords /\ contains keyword all_text = true.
Proof.
  intros Hc. rewrite extract_tags_unfold, Hc. cbn [fst]. intros [= <-] Hin.
  unfold tags_of_text in Hin. apply list_elem_of_In, list_elem_of_lookup in Hin.
  destruct Hin as [i [Hi _]%lookup_take_Some].
  assert (In tag (scan_keywords keywords all_text [])) as Hscan.
  { apply list_elem_of_In. eapply list_elem_of_lookup_2, Hi. }
  apply (proj1 (scan_keywords_table all_text)) in Hscan as [p Hp].
  apply first_match_from_found in Hp as ([keyword tag'] & Hrow & Hhit).
  unfold hit in Hhit. simpl in Hhit.
  apply andb_prop in Hhit as [->%String.eqb_eq Hsub]. eauto.
Qed.

(** Tag inference does not see the case of letters: two lists of records
    whose extracted contents are equal once lower-cased give the same
    tags. *)
Theorem extract_tags_case_insensitive (messages1 messages2 : list dict)
    (contents1 contents2 : list (option string)) :
  Forall2 (fun m content => (extract_content m).1 = Ok content) messages1 contents1 ->
  Forall2 (fun m content => (extract_content m).1 = Ok content) messages2 contents2 ->
  (option_map lower <$> contents1) = (option_map lower <$> contents2) ->
  (extract_tags messages1).1 = (extract_tags messages2).1.
Proof.
  intros H1 H2 Heq. rewrite !extract_tags_unfold.
  rewrite (collect_text_concat _ _ _ H1), (collect_text_concat _ _ _ H2).
  cbn [fst]. do 3 f_equal. clear H1 H2.
  revert contents2 Heq. induction contents1 as [|c1 contents1 IH];
    intros [|c2 contents2]; try done.
  cbn [fmap list_fmap]. intros [= Hc Hrest].
  by rewrite !concat_cons, !text_of_lower, Hc, (IH _ Hrest).
Qed.

End TagsMore.

(** ** Rendering: records without a heading *)

Section RenderMore.
Context `{PyLib}.

Lemma render_loop_headings messages current_role current_content output :
  (render_loop messages current_role current_content output).1
  = (render_loop (List.filter has_heading messages) current_role current_content
       output).1.
Proof.
  revert current_role current_content output.
  induction messages as [|m rest IH]; intros current_role current_content output;
    [done|].
  cbn [List.filter render_loop]. unfold has_heading at 1, role_value.
  destruct (heading_of _) as [role|] eqn:Hh.
  - cbn [render_loop]. rewrite Hh.
    destruct (extract_content m) as [[content|e] m']; [|done].
    destruct content as [[|c text]|];
      match goal with
      | |- context [render_loop rest ?r ?c ?o] =>
          specialize (IH r c o);
          destruct (render_loop rest r c o),
            (render_loop (List.filter has_heading rest) r c o)
      end; exact IH.
  - specialize (IH current_role current_content output).
    destruct (render_loop rest current_role current_content output). exact IH.
Qed.

(** A record whose role (or, without a role, whose type) is none of
    [user], [assistant], [tool_use], [tool_result] leaves no trace in the
    document: when the metadata holds the message count, [to_markdown]
    returns the same document without these records. *)
Theorem to_markdown_skips_other_roles (now : string) (messages : list dict)
    (md : metadata) (count : nat) :
  md_message_count md = Some count ->
  (to_markdown now messages md).1
  = (to_markdown now (List.filter has_heading messages) md).1.
Proof.
  intros Hcount. unfold to_markdown. rewrite Hcount. cbn [default].
  match goal with
  | |- context [render_loop messages ?r ?c ?o] =>
      pose proof (render_loop_headings messages r c o) as Hl;
      destruct (render_loop messages r c o),
        (render_loop (List.filter has_heading messages) r c o)
  end.
  cbn [fst] in *. by rewrite Hl.
Qed.

End RenderMore.

(** ** Index and document files *)

Lemma single_line_append a b : single_line (a +:+ b) = single_line a && single_line b.
Proof.
  induction a as [|c a IH]; [done|]. rewrite append_cons. simpl.
  by rewrite IH, !andb_assoc.
Qed.

Lemma single_line_substring n m s :
  single_line s = true -> single_line (substring n m s) = true.
Proof.
  revert n m. induction s as [|c s IH]; intros [|n] [|m]; simpl; try done.
  - intros [-> Hs]%andb_prop. simpl. by apply IH.
  - intros [_ Hs]%andb_prop. by apply IH.
  - intros [_ Hs]%andb_prop. by apply IH.
Qed.

Lemma single_line_join sep l :
  single_line sep = true -> forallb single_line l = true ->
  single_line (join sep l) = true.
Proof.
  intros Hsep. induction l as [|x l IH]; [done|]. simpl.
  intros [Hx Hl]%andb_prop. destruct l as [|y l]; [done|].
  rewrite !single_line_append, Hx, Hsep. by apply IH.
Qed.

(** A text without line ending, followed by a line feed, is a complete line. *)
Lemma complete_line_single s : single_line s = true -> complete_line (s +:+ nl) = true.
Proof.
  induction s as [|c s IH]; [done|]. rewrite append_cons. simpl.
  intros [[Hlf Hcr]%andb_prop Hs]%andb_prop.
  apply negb_true_iff in Hlf. rewrite Hlf, Hcr. by apply IH.
Qed.

(** The entry of a conversation is one complete line when the date, the
    title, the session identifier and the tags hold no line ending. *)
Theorem index_entry_complete_line (now session_id : string) (md : metadata) :
  single_line (default now (md_date md)) = true ->
  single_line (default "Untitled" (md_title md)) = true ->
  single_line session_id = true ->
  forallb single_line (default [] (md_tags md)) = true ->
  complete_line (index_entry now session_id md) = true.
Proof.
  intros Hdate Htitle Hsid Htags. unfold index_entry.
  apply complete_line_single.
  assert (Hentry : single_line
            ("- [" +:+ default now (md_date md) +:+ "] ["
             +:+ default "Untitled" (md_title md) +:+ "]("
             +:+ rel_path (default now (md_date md)) session_id +:+ ")") = true).
  { unfold rel_path, slice. rewrite !single_line_append, Hdate, Htitle, Hsid.
    by rewrite !single_line_substring. }
  destruct (default [] (md_tags md)) as [|tag tags] eqn:E; [exact Hentry|].
  rewrite single_line_append, Hentry, single_line_append.
  by rewrite single_line_join.
Qed.

(** *** Paths *)

Lemma no_sep_split_slash s : no_sep s = true -> split_slash s = [s].
Proof.
  induction s as [|c s IH]; [done|]. cbn [no_sep split_slash].
  destruct (is_sep c); [discriminate|]. intros Hs. by rewrite (IH Hs).
Qed.

Lemma no_sep_splitroot s : no_sep s = true -> splitroot s = ("", s).
Proof.
  destruct s as [|c s]; [done|]. cbn [no_sep splitroot].
  by destruct (is_sep c).
Qed.

Lemma split_slash_no_sep s : Forall (fun x => no_sep x = true) (split_slash s).
Proof.
  induction s as [|c s IH]; [by repeat constructor|]. cbn [split_slash].
  destruct (is_sep c) eqn:Ec; [by constructor|].
  destruct (split_slash s) as [|x xs].
  - repeat constructor. cbn [no_sep]. by rewrite Ec.
  - apply Forall_cons in IH as [Hx Hxs]. constructor; [|exact Hxs].
    cbn [no_sep]. by rewrite Ec.
Qed.

(** The components of a path hold no separator. *)
Lemma Path_parts_no_sep s : Forall (fun x => no_sep x = true) (path_parts (Path s)).
Proof.
  unfold Path. destruct (splitroot s) as [root rel]. cbn [path_parts].
  apply Forall_forall. intros x Hx. apply list_elem_of_In, filter_In in Hx as [Hx _].
  pose proof (split_slash_no_sep rel) as Hall.
  rewrite Forall_forall in Hall. by apply Hall, list_elem_of_In.
Qed.

(** A file name is appended to a path as one component. *)
Lemma truediv_file_name p s :
  file_name s = true ->
  truediv p s = {| path_root := path_root p; path_parts := path_parts p ++ [s] |}.
Proof.
  unfold file_name, truediv, Path. intros [[Hk Hs]%andb_prop _]%andb_prop.
  rewrite (no_sep_splitroot s Hs), (no_sep_split_slash s Hs).
  cbn [List.filter path_root path_parts is_empty]. by rewrite Hk.
Qed.

Lemma filepath_document output_path date session_id :
  document_names date session_id = true ->
  filepath output_path date session_id = document_path output_path date session_id.
Proof.
  unfold document_names. intros [[Hy Hm]%andb_prop Hf]%andb_prop.
  unfold filepath, date_dir, document_path.
  rewrite (truediv_file_name _ _ Hy), (truediv_file_name _ _ Hm),
    (truediv_file_name _ _ Hf).
  cbn [path_root path_parts]. by rewrite <- !app_assoc.
Qed.

Lemma index_path_parts output_dir :
  index_path output_dir
  = path_root output_dir +:+ join "/" (path_parts output_dir ++ ["index.md"]).
Proof.
  unfold index_path. rewrite truediv_file_name by reflexivity.
  unfold str_of_path. cbn [path_root path_parts].
  by destruct (path_parts output_dir).
Qed.

Lemma count_sep_append a b : count_sep (a +:+ b) = count_sep a + count_sep b.
Proof.
  induction a as [|c a IH]; [done|]. rewrite append_cons. cbn [count_sep].
  rewrite IH. lia.
Qed.

Lemma count_sep_no_sep s : no_sep s = true -> count_sep s = 0.
Proof.
  induction s as [|c s IH]; [done|]. cbn [no_sep count_sep].
  destruct (is_sep c); [discriminate|]. intros Hs. by rewrite (IH Hs).
Qed.

(** A path of [n] components without separator holds [n - 1] separators
    after its root. *)
Lemma count_sep_join l :
  Forall (fun x => no_sep x = true) l -> count_sep (join "/" l) = length l - 1.
Proof.
  induction 1 as [|x l Hx Hl IH]; [done|].
  destruct l as [|y l].
  - cbn [join String.concat length]. by rewrite (count_sep_no_sep x Hx).
  - change (join "/" (x :: y :: l)) with (x +:+ "/" +:+ join "/" (y :: l)).
    rewrite !count_sep_append, IH, (count_sep_no_sep x Hx). cbn [length count_sep].
    change (is_sep "/") with true. cbn. lia.
Qed.

Lemma file_name_no_sep s : file_name s = true -> no_sep s = true.
Proof. unfold file_name. by intros [[_ Hs]%andb_prop _]%andb_prop. Qed.

(** The document of a session and the index are two paths. *)
Lemma document_path_not_index output_dir date session_id :
  document_names date session_id = true ->
  document_path (Path output_dir) date session_id <> index_path (Path output_dir).
Proof.
  unfold document_names. intros [[Hy Hm]%andb_prop Hf]%andb_prop.
  apply file_name_no_sep in Hy, Hm, Hf.
  pose proof (Path_parts_no_sep output_dir) as Hparts.
  rewrite index_path_parts. unfold document_path, str_of_path.
  cbn [path_root path_parts].
  destruct (path_parts (Path output_dir) ++ [_; _; _]) as [|x l] eqn:El.
  { by destruct (path_parts (Path output_dir)). }
  rewrite <- El. clear x l El. intros Heq.
  apply (f_equal count_sep) in Heq. rewrite !count_sep_append in Heq.
  rewrite !count_sep_join in Heq.
  - rewrite !length_app in Heq. cbn [length] in Heq. lia.
  - apply Forall_app. split; [exact Hparts | by repeat constructor].
  - apply Forall_app. split; [exact Hparts | by repeat constructor].
Qed.

(** *** The index *)

Lemma update_index_splits (fs : filesystem) (now : string) (output_dir : PurePath)
    (session_id : string) (md : metadata) :
  let index := index_path output_dir in
  exists before after,
    update_index fs now output_dir session_id md !! index
    = Some (before +:+ index_entry now session_id md +:+ after)
    /\ before +:+ after
       = match fs !! index with
         | Some content => universal_newlines content
         | None => writelines index_header
         end
    /\ forall path, path <> index ->
         update_index fs now output_dir session_id md !! path = fs !! path.
Proof.
  intros index. unfold update_index. fold index.
  set (lines := match fs !! index with
                | Some content => readlines content
                | None => index_header
                end).
  exists (writelines (take (insert_pos lines) lines)),
         (writelines (drop (insert_pos lines) lines)).
  split; [|split].
  - rewrite lookup_insert_eq. f_equal. unfold insert_entry, list_insert_at, writelines.
    by rewrite concat_app, concat_cons.
  - unfold writelines. rewrite <- concat_app, take_drop. unfold lines.
    destruct (fs !! index); [|done]. apply keepends_concat.
  - intros path Hne. by rewrite lookup_insert_ne.
Qed.

(** [update_index] only inserts: the index it writes is the text it
    loaded (the fixed header when there was no file) with the entry put in
    at one place, and no other file changes. *)
Theorem update_index_inserts (fs : filesystem) (now : string) (output_dir : PurePath)
    (session_id : string) (md : metadata) :
  let index := index_path output_dir in
  exists before after,
    update_index fs now output_dir session_id md !! index
    = Some (before +:+ index_entry now session_id md +:+ after)
    /\ before +:+ after
       = match fs !! index with
         | Some content => universal_newlines content
         | None => writelines index_header
         end
    /\ forall path, path <> index ->
         update_index fs now output_dir session_id md !! path = fs !! path.
Proof. apply update_index_splits. Qed.

(** In an index without the section marker the entry goes to the end of
    the file. *)
Theorem update_index_without_marker (fs : filesystem) (now : string)
    (output_dir : PurePath) (session_id content : string) (md : metadata) :
  fs !! index_path output_dir = Some content ->
  find_marker 0 (readlines content) = None ->
  update_index fs now output_dir session_id md
  = <[index_path output_dir :=
        universal_newlines content +:+ index_entry now session_id md]> fs.
Proof.
  intros Hfs Hm. unfold update_index. rewrite Hfs. f_equal.
  unfold insert_entry, insert_pos, list_insert_at. rewrite Hm.
  rewrite take_ge, drop_ge by done. unfold writelines.
  rewrite concat_app, concat_cons. simpl String.concat at 2.
  rewrite append_nil_r. f_equal. apply keepends_concat.
Qed.

Lemma update_index_on_header fs now output_dir session_id md entries :
  fs !! index_path output_dir = Some (writelines (index_header ++ entries)) ->
  Forall (fun l => complete_line l = true) entries ->
  update_index fs now output_dir session_id md
  = <[index_path output_dir :=
        writelines (index_header ++ index_entry now session_id md :: entries)]> fs.
Proof.
  intros Hfs Hall. unfold update_index. rewrite Hfs. f_equal.
  rewrite readlines_writelines; [reflexivity|].
  apply Forall_app. split; [by repeat constructor | exact Hall].
Qed.

(** Starting without an index file, a sequence of calls of [update_index]
    whose entries are complete lines leaves the fixed header followed by
    the entries, the last inserted first. *)
Theorem update_index_newest_first (fs : filesystem) (now : string)
    (output_dir : PurePath) (items : list (string * metadata)) :
  fs !! index_path output_dir = None ->
  items <> [] ->
  Forall (fun item => complete_line (index_entry now item.1 item.2) = true) items ->
  update_index_all fs now output_dir items !! index_path output_dir
  = Some (writelines
            (index_header
             ++ rev ((fun item => index_entry now item.1 item.2) <$> items))).
Proof.
  intros Hfs Hne Hall.
  assert (Hgen : forall items fs entries,
    fs !! index_path output_dir = Some (writelines (index_header ++ entries)) ->
    Forall (fun l => complete_line l = true) entries ->
    Forall (fun item => complete_line (index_entry now item.1 item.2) = true) items ->
    update_index_all fs now output_dir items !! index_path output_dir
    = Some (writelines
              (index_header
               ++ rev ((fun item => index_entry now item.1 item.2) <$> items)
               ++ entries))).
  { clear. induction items as [|item items IH]; intros fs entries Hfs Hentries Hitems;
      [exact Hfs|].
    apply Forall_cons in Hitems as [Hitem Hitems].
    unfold update_index_all. cbn [fold_left].
    rewrite (update_index_on_header _ _ _ _ _ _ Hfs Hentries).
    fold (update_index_all
            (<[index_path output_dir :=
                 writelines (index_header ++ index_entry now item.1 item.2 :: entries)]> fs)
            now output_dir items).
    rewrite (IH _ (index_entry now item.1 item.2 :: entries));
      [| by rewrite lookup_insert_eq | by constructor | exact Hitems].
    cbn [fmap list_fmap rev]. by rewrite <- app_assoc. }
  destruct items as [|item items]; [done|].
  apply Forall_cons in Hall as [Hitem Hitems].
  unfold update_index_all. cbn [fold_left].
  assert (Hfirst : update_index fs now output_dir item.1 item.2
    = <[index_path output_dir :=
          writelines (index_header ++ [index_entry now item.1 item.2])]> fs).
  { unfold update_index. by rewrite Hfs. }
  rewrite Hfirst.
  fold (update_index_all
          (<[index_path output_dir :=
               writelines (index_header ++ [index_entry now item.1 item.2])]> fs)
          now output_dir items).
  rewrite (Hgen items _ [index_entry now item.1 item.2]);
    [| by rewrite lookup_insert_eq | by repeat constructor | exact Hitems].
  reflexivity.
Qed.

(** *** The document and the index *)

Lemma save_conversation_stores (fs : filesystem)
    (now markdown output_dir session_id : string) (md : metadata) :
  let date := default now (md_date md) in
  let document := document_path (Path output_dir) date session_id in
  let index := index_path (Path output_dir) in
  let fs' := save_conversation fs now markdown output_dir session_id md in
  document_names date session_id = true ->
  document <> index
  /\ fs' !! document = Some markdown
  /\ fs' !! index = update_index fs now (Path output_dir) session_id md !! index
  /\ forall path, path <> document -> path <> index -> fs' !! path = fs !! path.
Proof.
  intros date document index fs' Hnames. unfold fs', save_conversation. fold date.
  rewrite (filepath_document _ _ _ Hnames). fold document.
  pose proof (document_path_not_index output_dir date session_id Hnames) as Hne.
  fold document index in Hne.
  assert (Hread : (<[document := markdown]> fs) !! index = fs !! index)
    by (by apply lookup_insert_ne).
  unfold update_index. fold index. rewrite Hread.
  split; [exact Hne|]. split; [|split].
  - rewrite lookup_insert_ne by (intros Heq; by apply Hne). apply lookup_insert_eq.
  - by rewrite !lookup_insert_eq.
  - intros path Hdoc Hidx. by rewrite !lookup_insert_ne.
Qed.

(** When the three names [save_conversation] appends to the output
    directory are file names, the call leaves the document in the file
    they name below the output directory, where the update of the index
    does not overwrite it; the index is updated as by [update_index] on
    the files as they were; and no other file changes. *)
Theorem save_conversation_files (fs : filesystem)
    (now markdown output_dir session_id : string) (md : metadata) :
  let date := default now (md_date md) in
  let document := document_path (Path output_dir) date session_id in
  let index := index_path (Path output_dir) in
  let fs' := save_conversation fs now markdown output_dir session_id md in
  document_names date session_id = true ->
  document <> index
  /\ fs' !! document = Some markdown
  /\ fs' !! index = update_index fs now (Path output_dir) session_id md !! index
  /\ forall path, path <> document -> path <> index -> fs' !! path = fs !! path.
Proof. apply save_conversation_stores. Qed.

(** ** [main]: what a run writes *)

Section MainMore.
Context `{PyLib}.


(** A run that returns 1, or that [argparse] ends with status 2, has
    changed no file: both happen before the first write. *)
Theorem main_failure_writes_nothing (inv : invocation) (fs : filesystem) :
  (main inv fs).1 = Return 1 \/ (main inv fs).1 = SysExit 2 ->
  (main inv fs).2 = fs.
Proof.
  unfold main. destruct (no_arguments (argv inv) && negb (stdin_isatty inv)).
  - pose proof (main_hook_outcome inv fs) as Hh.
    destruct (payload_refused inv); [by rewrite Hh|].
    destruct Hh as [[fs' ->]|[e ->]]; cbn [fst snd]; by intros [|].
  - pose proof (main_cli_outcome inv fs) as Hc.
    destruct (parse_args (argv inv)) as [[[[session_id transcript] output] cwd]|status].
    + destruct (parse_transcript fs transcript); [by rewrite Hc|].
      destruct Hc as [[fs' ->]|[e ->]]; cbn [fst snd]; by intros [|].
    + destruct Hc as [_ ->]. done.
Qed.

(** In hook mode, a session identifier that stands on a line of its own in
    the marker file ends the run at once: [main] returns 0 and writes
    nothing. *)
Theorem main_skips_recorded_session (inv : invocation) (fs : filesystem)
    (hook_data : gmap string string) (content : string) :
  hook_mode inv = true ->
  stdin_json inv = Ok hook_data ->
  is_empty (default "" (hook_data !! "session_id")) = false ->
  is_empty (default "" (hook_data !! "cwd")) = false ->
  fs !! state_file_of (default "" (hook_data !! "cwd")) = Some content ->
  In (default "" (hook_data !! "session_id") +:+ nl) (readlines content) ->
  main inv fs = (Return 0, fs).
Proof.
  intros Hm Hd Hs Hc Hfs Hin. unfold main. unfold hook_mode in Hm. rewrite Hm.
  by eapply main_hook_recorded.
Qed.

(** In hook mode, after a run that returned 0, a second run with the same
    input returns 0 and writes nothing, when the session identifier holds
    no line ending: a session is exported at most once. *)
Theorem main_exports_at_most_once (inv : invocation) (fs fs' : filesystem)
    (hook_data : gmap string string) :
  hook_mode inv = true ->
  stdin_json inv = Ok hook_data ->
  single_line (default "" (hook_data !! "session_id")) = true ->
  main inv fs = (Return 0, fs') ->
  main inv fs' = (Return 0, fs').
Proof.
  intros Hm Hd Hsl. unfold main. unfold hook_mode in Hm. rewrite Hm.
  by apply main_hook_at_most_once with hook_data.
Qed.



End MainMore.

(** ** Rendering: sections *)

Lemma merge_section_nonempty s sections : merge_section s sections <> [].
Proof.
  unfold merge_section. destruct sections as [|[role contents] rest]; [done|].
  by destruct (String.eqb s.1 role).
Qed.

Lemma merge_section_same role contents content sections :
  merge_section (role, contents) (merge_section (role, [content]) sections)
  = merge_section (role, contents ++ [content]) sections.
Proof.
  unfold merge_section. destruct sections as [|[role' contents'] rest]; simpl.
  - by rewrite String.eqb_refl.
  - destruct (String.eqb role role') eqn:E; simpl.
    + by rewrite String.eqb_refl, <- app_assoc.
    + by rewrite String.eqb_refl.
Qed.

Lemma merge_section_other role contents role' content sections :
  String.eqb role role' = false ->
  merge_section (role, contents) (merge_section (role', [content]) sections)
  = (role, contents) :: merge_section (role', [content]) sections.
Proof.
  intros Hne. unfold merge_section at 1.
  destruct (merge_section (role', [content]) sections) as [|[r cs] rest] eqn:E;
    [done|].
  assert (r = role') as ->.
  { unfold merge_section in E. destruct sections as [|[r' cs'] rest'].
    - by injection E as <- _ _.
    - simpl in E. destruct (String.eqb role' r'); by injection E as <- _ _. }
  simpl. by rewrite Hne.
Qed.

Lemma body_of_cons s sections :
  sections <> [] ->
  body_of (s :: sections) = section_text s :: "" :: "---" :: "" :: body_of sections.
Proof. by destruct sections. Qed.

Lemma join_app sep (l1 l2 : list string) :
  l1 <> [] -> l2 <> [] ->
  join sep (l1 ++ l2) = join sep l1 +:+ sep +:+ join sep l2.
Proof.
  intros H1 H2. induction l1 as [|x l1 IH]; [done|].
  destruct l1 as [|y l1].
  - destruct l2; [done|]. reflexivity.
  - change (join sep ((x :: y :: l1) ++ l2))
      with (x +:+ sep +:+ join sep ((y :: l1) ++ l2)).
    rewrite IH by done.
    change (join sep (x :: y :: l1)) with (x +:+ sep +:+ join sep (y :: l1)).
    by rewrite !append_assoc.
Qed.

Section Sections.
Context `{PyLib}.

(** The loop with an open section, over records that all render. *)
Lemma render_loop_open_section messages items :
  Forall2 renders_as messages items ->
  forall role contents output,
  exists current_content output',
    (render_loop messages (Some role) (role :: "" :: contents) output).1
    = Ok (current_content, output')
    /\ current_content <> []
    /\ output' ++ [join nl current_content]
       = output ++ body_of (merge_section (role, contents) (sections_of items)).
Proof.
  induction 1 as [|m [role' content] messages items (Hh & Hc & Hne) _ IH];
    intros role contents output.
  - exists (role :: "" :: contents), output. by repeat split.
  - cbn [render_loop]. unfold role_value in Hh. cbn [fst snd] in Hh, Hc, Hne.
    rewrite Hh. destruct (extract_content m) as [r m']. cbn [fst] in Hc. subst r.
    destruct content as [|c text]; [done|].
    cbn [sections_of].
    destruct (String.eqb role role') eqn:Erole; cbn [negb].
    + apply String.eqb_eq in Erole. subst role'.
      destruct (IH role (contents ++ [String c text]) output)
        as (cc & out & Hl & Hcc & Hout).
      change ((role :: "" :: contents) ++ [String c text])
        with (role :: "" :: (contents ++ [String c text])).
      destruct (render_loop messages (Some role) _ output) as [r ms].
      cbn [fst] in *. exists cc, out. split; [exact Hl|]. split; [exact Hcc|].
      by rewrite merge_section_same.
    + destruct (IH role' [String c text]
                  (output ++ [join nl (role :: "" :: contents); ""; "---"; ""]))
        as (cc & out & Hl & Hcc & Hout).
      change ([role'; ""] ++ [String c text]) with [role'; ""; String c text].
      destruct (render_loop messages (Some role') _ _) as [r ms].
      cbn [fst] in *. exists cc, out. split; [exact Hl|]. split; [exact Hcc|].
      rewrite Hout, (merge_section_other _ _ _ _ _ Erole).
      rewrite body_of_cons by apply merge_section_nonempty.
      by rewrite <- app_assoc.
Qed.

(** The loop from its start, over records that all render. *)
Lemma render_loop_sections m item messages items output :
  Forall2 renders_as (m :: messages) (item :: items) ->
  exists current_content output',
    (render_loop (m :: messages) None [] output).1 = Ok (current_content, output')
    /\ current_content <> []
    /\ output' ++ [join nl current_content]
       = output ++ body_of (sections_of (item :: items)).
Proof.
  intros Hall. apply Forall2_cons in Hall as [(Hh & Hc & Hne) Hall].
  destruct item as [role content]. cbn [fst snd] in Hh, Hc, Hne.
  cbn [render_loop]. unfold role_value in Hh. rewrite Hh.
  destruct (extract_content m) as [r m']. cbn [fst] in Hc. subst r.
  destruct content as [|c text]; [done|].
  destruct (render_loop_open_section messages items Hall role [String c text] output)
    as (cc & out & Hl & Hcc & Hout).
  change ([role; ""] ++ [String c text]) with [role; ""; String c text].
  destruct (render_loop messages (Some role) _ output) as [r ms].
  cbn [fst] in *. eauto.
Qed.

(** When the metadata holds [message_count], the list of records is not
    empty, and every record has a heading and a non-empty content, the
    document is the document of the empty conversation (the front matter
    and the summary) followed by the sections: each maximal run of
    consecutive records with the same heading is one section (heading,
    empty line, contents in order), and a rule between empty lines
    separates two sections. *)
Theorem to_markdown_sections (now : string) (messages : list dict) (md : metadata)
    (count : nat) (items : list (string * string)) (head : string) :
  md_message_count md = Some count ->
  messages <> [] ->
  Forall2 renders_as messages items ->
  (to_markdown now [] md).1 = Ok head ->
  (to_markdown now messages md).1
  = Ok (head +:+ nl +:+ join nl (body_of (sections_of items))).
Proof.
  intros Hcount Hne Hall Hhead. unfold to_markdown in Hhead |- *.
  rewrite Hcount in Hhead |- *. cbn [default] in Hhead |- *.
  destruct messages as [|m messages]; [done|].
  destruct items as [|item items]; [by apply Forall2_cons_nil_inv in Hall|].
  match type of Hhead with
  | context [render_loop [] None [] ?o] => set (output := o) in Hhead |- *
  end.
  cbn [render_loop fst mbind result_bind mret result_ret] in Hhead.
  injection Hhead as <-.
  destruct (render_loop_sections m item messages items output Hall)
    as (cc & out & Hl & Hcc & Hout).
  destruct (render_loop (m :: messages) None [] output) as [r ms].
  cbn [fst] in Hl. subst r. cbn [fst mbind result_bind mret result_ret].
  f_equal. destruct cc as [|l cc]; [done|]. rewrite Hout.
  apply join_app; [done|].
  cbn [sections_of]. destruct item as [role content].
  pose proof (merge_section_nonempty (role, [content]) (sections_of items)) as Hs.
  destruct (merge_section _ _) as [|s [|s' rest]]; done.
Qed.

End Sections.

(** ** Closed examples

    The properties above at concrete inputs, on the sample library. *)

#[local] Existing Instance Samples.lib.

(** The example of the specification: the first message is too short, the
    second gives the title; and a conversation with no qualifying message. *)
Lemma generate_title_first_qualifying_witness :
  (generate_title [Samples.user_message "hi"; Samples.user_message Samples.request]
     "0123456789abcdef").1 = Ok Samples.request
  /\ (generate_title [Samples.user_message "hi"] "0123456789abcdef").1
     = Ok "Conversation 01234567".
Proof.
  assert (Hhi : passed_over (Samples.user_message "hi")).
  { right. exists (Some "hi"). split; [reflexivity|]. by intros c [= <-]. }
  split.
  - apply (proj1 (generate_title_first_qualifying _ _)
             [Samples.user_message "hi"] (Samples.user_message Samples.request)
             [] Samples.request);
      [reflexivity | by constructor | reflexivity ..].
  - apply (proj2 (generate_title_first_qualifying
                    [Samples.user_message "hi"] "0123456789abcdef")).
    by constructor.
Defined.

(** A text in which two keywords of one tag occur. *)
Lemma extract_tags_unique_ordered_capped_witness :
  exists tags,
    extract_tags [Samples.user_message "fix the bug, then debug the api"]
    = (Ok tags, [[("role", JStr "user");
                  ("content", JStr "fix the bug, then debug the api")]])
    /\ NoDup tags
    /\ in_first_match_order "fix the bug, then debug the api " tags
    /\ length tags <= 5.
Proof.
  apply (extract_tags_unique_ordered_capped
           [Samples.user_message "fix the bug, then debug the api"]).
  reflexivity.
Defined.

(** [test] inside [latest]. *)
Lemma extract_tags_substring_match_witness :
  exists tags,
    extract_tags [Samples.user_message "my latest rapid prototype"]
    = (Ok tags, [[("role", JStr "user");
                  ("content", JStr "my latest rapid prototype")]])
    /\ (In "testing" tags
        \/ (length tags = 5
            /\ forall t, In t tags ->
                 exists p q, first_match "my latest rapid prototype " t = Some p
                   /\ first_match "my latest rapid prototype " "testing" = Some q
                   /\ p < q)).
Proof.
  apply (extract_tags_substring_match
           [Samples.user_message "my latest rapid prototype"]
           "my latest rapid prototype " _ "test" "testing").
  - reflexivity.
  - vm_compute. tauto.
  - reflexivity.
Defined.

(** [test] inside [latest] and [api] inside [rapid] give their tags. *)
Example extract_tags_inside_words :
  (extract_tags [Samples.user_message "my latest rapid prototype"]).1
  = Ok ["testing"; "api"].
Proof. reflexivity. Qed.

(** C10, as stated, fails once five tags are in: [api] occurs in the text
    and its tag is not in the result. *)
Lemma extract_tags_substring_match_counterexample :
  collect_text ""
    [Samples.user_message "Fix the feature: refactor, test, review the API"]
  = (Ok "fix the feature: refactor, test, review the api ",
     [[("role", JStr "user");
       ("content", JStr "Fix the feature: refactor, test, review the API")]])
  /\ In ("api", "api") keywords
  /\ contains "api" "fix the feature: refactor, test, review the api " = true
  /\ (extract_tags
        [Samples.user_message "Fix the feature: refactor, test, review the API"]).1
     = Ok ["bug-fix"; "feature-development"; "refactoring"; "testing"; "code-review"]
  /\ ~ In "api"
         ["bug-fix"; "feature-development"; "refactoring"; "testing"; "code-review"].
Proof.
  split; [reflexivity|]. split; [vm_compute; tauto|]. split; [reflexivity|].
  split; [reflexivity|]. simpl. intros H. repeat destruct H as [H|H]; discriminate || done.
Qed.

(** A record as the Log Reader returns it for a real user message. *)
Lemma extract_tags_twice_witness :
  Forall tag_agrees [Samples.user_message "fix the bug"]
  /\ (extract_tags (extract_tags [Samples.user_message "fix the bug"]).2).1
     = (extract_tags [Samples.user_message "fix the bug"]).1.
Proof.
  assert (Hall : Forall tag_agrees [Samples.user_message "fix the bug"]).
  { constructor; [reflexivity | constructor]. }
  split; [exact Hall|]. apply (extract_tags_twice _ Hall).
Defined.

(** C6, as stated, fails on a record the Log Reader returns for a user
    line whose message has no role: the first run reads the tag and
    removes it, the second run finds no content. *)
Lemma extract_tags_twice_counterexample :
  parse_transcript {[ "t.jsonl" := Samples.line_no_role ]} "t.jsonl"
  = [[("content", JStr "fix the bug"); ("_msg_type", JStr "user")]]
  /\ extract_tags [[("content", JStr "fix the bug"); ("_msg_type", JStr "user")]]
     = (Ok ["bug-fix"], [[("content", JStr "fix the bug")]])
  /\ (extract_tags [[("content", JStr "fix the bug")]]).1 = Ok [].
Proof. split; [vm_compute; reflexivity|]. split; reflexivity. Qed.

(** C7, as stated, fails on the record the Log Reader returns for a user
    line: content extraction removes its [_msg_type] field. *)
Lemma records_change_only_by_tag_removal_counterexample :
  parse_transcript {[ "t.jsonl" := Samples.line_user "hi" +:+ nl ]} "t.jsonl"
  = [[("role", JStr "user"); ("content", JStr "hi"); ("_msg_type", JStr "user")]]
  /\ (extract_content
        [("role", JStr "user"); ("content", JStr "hi"); ("_msg_type", JStr "user")]).2
     = [("role", JStr "user"); ("content", JStr "hi")]
  /\ (extract_content
        [("role", JStr "user"); ("content", JStr "hi"); ("_msg_type", JStr "user")]).2
     <> [("role", JStr "user"); ("content", JStr "hi"); ("_msg_type", JStr "user")].
Proof. split; [vm_compute; reflexivity|]. split; [reflexivity|discriminate]. Qed.

(** A tool result with a string content, one with two text sub-blocks,
    and one that carries the role of a user message. *)
Lemma extract_content_tool_result_witness :
  (extract_content
     [("type", JStr "tool_result"); ("tool_use_id", JStr "t1");
      ("content", JStr "done")]).1
  = Ok (Some ("**Tool Result**: `t1`" +:+ nl +:+ fenced "done"))
  /\ (extract_content
        [("type", JStr "tool_result"); ("tool_use_id", JStr "t1");
         ("content", JList [Samples.text_block "a"; Samples.text_block "b"])]).1
     = Ok (Some ("**Tool Result**: `t1`" +:+ nl +:+ fenced "a" +:+ fenced "b"))
  /\ (extract_content
        [("type", JStr "tool_result"); ("role", JStr "user");
         ("tool_use_id", JStr "t1"); ("content", JStr "done")]).1
     = Ok (Some "done").
Proof.
  split; [|split].
  - apply (proj1 (proj1 (extract_content_tool_result
             [("type", JStr "tool_result"); ("tool_use_id", JStr "t1");
              ("content", JStr "done")] eq_refl) eq_refl eq_refl) "done").
    reflexivity.
  - apply (proj2 (proj1 (extract_content_tool_result
             [("type", JStr "tool_result"); ("tool_use_id", JStr "t1");
              ("content", JList [Samples.text_block "a"; Samples.text_block "b"])]
             eq_refl) eq_refl eq_refl)
             [Samples.text_block "a"; Samples.text_block "b"]).
    reflexivity.
  - apply (proj2 (extract_content_tool_result
             [("type", JStr "tool_result"); ("role", JStr "user");
              ("tool_use_id", JStr "t1"); ("content", JStr "done")] eq_refl)
             (or_introl eq_refl) "done").
    reflexivity.
Defined.

(** C4, as stated, fails on a tool result with two text sub-blocks: the
    code gives two verbatim blocks, not the sub-blocks concatenated (with
    or without a line feed between them) inside one.  It also fails on a
    tool result that carries the role of a user message: the code returns
    its content as it is, without header or verbatim block. *)
Lemma extract_content_tool_result_counterexample :
  let m := [("type", JStr "tool_result"); ("tool_use_id", JStr "t1");
            ("content", JList [Samples.text_block "a"; Samples.text_block "b"])] in
  let items := [Samples.text_block "a"; Samples.text_block "b"] in
  let m' := [("type", JStr "tool_result"); ("role", JStr "user");
             ("tool_use_id", JStr "t1"); ("content", JStr "done")] in
  (standalone_tool_result m = true
   /\ (extract_content m).1
      = Ok (Some ("**Tool Result**: `t1`" +:+ nl +:+ fenced "a" +:+ fenced "b"))
   /\ (extract_content m).1 <> Ok (Some (one_block_rendering "" m items))
   /\ (extract_content m).1 <> Ok (Some (one_block_rendering nl m items)))
  /\ (standalone_tool_result m' = true
      /\ (extract_content m').1 = Ok (Some "done")
      /\ (extract_content m').1 <> Ok (Some (tool_result_header m' +:+ fenced "done"))).
Proof.
  split.
  - split; [reflexivity|]. split; [reflexivity|]. split; vm_compute; discriminate.
  - split; [reflexivity|]. split; [reflexivity|]. vm_compute. discriminate.
Qed.

(** Two insertions into the index as [update_index] creates it: the second
    entry, of an earlier date, is directly under the section header.  The
    same on an index whose marker is the last line: the second entry is
    below the first. *)
Lemma update_index_below_marker_witness :
  (readlines <$>
     update_index Samples.fresh_index "2026-01-02" (Path "out") "s1" Samples.md_first
     !! "out/index.md"
   = Some (index_header ++ [Samples.entry_first])
   /\ readlines <$>
        update_index
          (update_index Samples.fresh_index "2026-01-02" (Path "out") "s1"
             Samples.md_first)
          "2026-01-03" (Path "out") "s2" Samples.md_second
        !! "out/index.md"
      = Some (index_header ++ [Samples.entry_second; Samples.entry_first]))
  /\ (readlines <$>
        update_index Samples.marker_last_index "2026-01-02" (Path "out") "s1"
          Samples.md_first
        !! "out/index.md"
      = Some ["# Conversation Index" +:+ nl; "## Conversations" +:+ nl;
              Samples.entry_first]
      /\ readlines <$>
           update_index
             (update_index Samples.marker_last_index "2026-01-02" (Path "out") "s1"
                Samples.md_first)
             "2026-01-03" (Path "out") "s2" Samples.md_second
           !! "out/index.md"
         = Some ["# Conversation Index" +:+ nl; "## Conversations" +:+ nl;
                 Samples.entry_first; Samples.entry_second]).
Proof.
  split.
  - destruct (update_index_below_marker Samples.fresh_index "2026-01-02" "2026-01-03"
                (Path "out") "s1" "s2" Samples.md_first Samples.md_second
                (writelines index_header) 4) as (_ & _ & Hlines).
    + vm_compute. reflexivity.
    + reflexivity.
    + destruct Hlines as [Hone Htwo]; [by repeat constructor | reflexivity |].
      split; [exact Hone|]. by destruct Htwo as [_ Htwo].
  - destruct (update_index_below_marker Samples.marker_last_index "2026-01-02"
                "2026-01-03" (Path "out") "s1" "s2" Samples.md_first Samples.md_second
                ("# Conversation Index" +:+ nl +:+ "## Conversations" +:+ nl) 1)
      as (_ & _ & Hlines).
    + vm_compute. reflexivity.
    + reflexivity.
    + destruct Hlines as [Hone Htwo]; [by repeat constructor | reflexivity |].
      split; [exact Hone|]. by destruct Htwo as [_ Htwo].
Defined.

(** C2, as stated, fails on an index whose marker is its last line: the
    first entry goes one line below the marker, and the second entry goes
    below the first.  It also fails on an index whose last line, the one
    below the marker, has no line feed: the entry continues that line, so
    the file gains no line and the line is changed. *)
Lemma update_index_below_marker_counterexample :
  (find_marker 0 (readlines ("# Conversation Index" +:+ nl +:+ "## Conversations" +:+ nl))
   = Some 1
   /\ readlines <$>
        (update_index Samples.marker_last_index "2026-01-02" (Path "out") "s1"
           Samples.md_first
         !! "out/index.md")
      = Some ["# Conversation Index" +:+ nl; "## Conversations" +:+ nl;
              Samples.entry_first]
   /\ readlines <$>
        (update_index
           (update_index Samples.marker_last_index "2026-01-02" (Path "out") "s1"
              Samples.md_first)
           "2026-01-03" (Path "out") "s2" Samples.md_second
         !! "out/index.md")
      = Some ["# Conversation Index" +:+ nl; "## Conversations" +:+ nl;
              Samples.entry_first; Samples.entry_second])
  /\ (readlines ("## Conversations" +:+ nl +:+ "foo") = ["## Conversations" +:+ nl; "foo"]
      /\ readlines <$>
           (update_index Samples.unfinished_index "2026-01-02" (Path "out") "s1"
              Samples.md_first
            !! "out/index.md")
         = Some ["## Conversations" +:+ nl; "foo" +:+ Samples.entry_first]).
Proof.
  split.
  - split; [reflexivity|]. split; vm_compute; reflexivity.
  - split; vm_compute; reflexivity.
Qed.

(** A file with two valid records, one line that does not decode, and
    the line [42]: the Log Reader returns nothing; without the line [42]
    it returns the two records. *)
Lemma parse_transcript_aborts_on_non_object_witness :
  parse_transcript
    {[ "t.jsonl" := Samples.line_tool_use +:+ nl +:+ Samples.line_broken +:+ nl
                    +:+ Samples.line_user Samples.request +:+ nl
                    +:+ Samples.line_number +:+ nl ]} "t.jsonl"
  = []
  /\ parse_transcript
       {[ "t.jsonl" := Samples.line_tool_use +:+ nl +:+ Samples.line_broken +:+ nl
                       +:+ Samples.line_user Samples.request +:+ nl ]} "t.jsonl"
     = [[("type", JStr "tool_use"); ("name", JStr "Read")];
        Samples.user_message Samples.request].
Proof.
  split.
  - apply (parse_transcript_aborts_on_non_object _ _
             (Samples.line_tool_use +:+ nl +:+ Samples.line_broken +:+ nl
              +:+ Samples.line_user Samples.request +:+ nl
              +:+ Samples.line_number +:+ nl)
             (Samples.line_number +:+ nl) (JInt 42)).
    + vm_compute. reflexivity.
    + vm_compute. tauto.
    + reflexivity.
    + reflexivity.
    + reflexivity.
  - vm_compute. reflexivity.
Defined.

(** The same happens on a user record whose message is a string. *)
Example parse_transcript_text_message :
  parse_transcript
    {[ "t.jsonl" := Samples.line_tool_use +:+ nl +:+ Samples.line_text_message +:+ nl ]}
    "t.jsonl"
  = [].
Proof. vm_compute. reflexivity. Qed.

(** C8, where the code departs from it.  The marker file records the
    session [session-10] only, the transcript exists and holds a record,
    and the hook run for [session-1] ends at the guard: it returns 0 and
    exports nothing.  With [session-20] recorded instead, the same run
    writes the document, the index and the marker. *)
Theorem main_hook_skips_unrecorded_session :
  ~ In ("session-1" +:+ nl) (readlines ("session-10" +:+ nl))
  /\ parse_transcript (Samples.exported_only "session-10") "t.jsonl"
     = [Samples.user_message Samples.request]
  /\ main Samples.hook_run (Samples.exported_only "session-10")
     = (Return 0, Samples.exported_only "session-10")
  /\ (main Samples.hook_run (Samples.exported_only "session-20")).1 = Return 0
  /\ is_Some ((main Samples.hook_run (Samples.exported_only "session-20")).2
               !! "/w/.claude/history/2026/01-02/session-1.md")
  /\ (main Samples.hook_run (Samples.exported_only "session-20")).2
       !! "/w/.claude/history/.exported_state"
     = Some ("session-20" +:+ nl +:+ "session-1" +:+ nl).
Proof.
  split; [|split; [|split; [|split; [|split]]]].
  - vm_compute. intros [Hx|[]]. discriminate.
  - vm_compute. reflexivity.
  - apply (main_hook_guard Samples.hook_run _ _ ("session-10" +:+ nl) eq_refl);
      vm_compute; reflexivity.
  - vm_compute. reflexivity.
  - vm_compute. eauto.
  - vm_compute. reflexivity.
Qed.

(** C9, as stated, fails on a command-line run without [--output]: a
    required input is missing and the process ends with status 2. *)
Lemma main_completion_codes_counterexample :
  missing_required (argv Samples.cli_run_without_output) = true
  /\ (main Samples.cli_run_without_output ∅).1 = SysExit 2
  /\ exit_status (main Samples.cli_run_without_output ∅).1 = 2%Z.
Proof. split; [reflexivity|]. split; reflexivity. Qed.

(** ** Closed examples of the further properties *)

Lemma parse_transcript_in_file_order_witness :
  parse_transcript {[ "t.jsonl" := Samples.transcript_with_broken_line ]} "t.jsonl"
  = concat (line_records <$> readlines Samples.transcript_with_broken_line)
  /\ concat (line_records <$> readlines Samples.transcript_with_broken_line)
     = [[("type", JStr "tool_use"); ("name", JStr "Read")];
        Samples.user_message Samples.request].
Proof.
  split; [|vm_compute; reflexivity].
  apply (parse_transcript_in_file_order _ "t.jsonl"
           Samples.transcript_with_broken_line).
  - vm_compute. reflexivity.
  - repeat constructor.
Defined.

Lemma parse_transcript_skips_line_witness :
  parse_transcript {[ "t.jsonl" := Samples.transcript_with_broken_line ]} "t.jsonl"
  = parse_transcript {[ "u.jsonl" := Samples.transcript_without_broken_line ]} "u.jsonl".
Proof.
  apply (parse_transcript_skips_line _ _ "t.jsonl" "u.jsonl"
           Samples.transcript_with_broken_line
           Samples.transcript_without_broken_line
           [Samples.line_tool_use +:+ nl] [Samples.line_user Samples.request +:+ nl]
           (Samples.line_broken +:+ nl));
    vm_compute; reflexivity.
Defined.

Lemma extract_content_user_blocks_witness :
  (exists text, (extract_content Samples.user_with_blocks).1 = Ok (Some text)
     /\ strip text = text)
  /\ exists e, (extract_content Samples.user_with_number).1 = Raise e.
Proof.
  split.
  - exact (extract_content_user_blocks Samples.user_with_blocks
             Samples.user_blocks eq_refl eq_refl).
  - exact (extract_content_user_blocks Samples.user_with_number
             [JDict [("type", JStr "text"); ("text", JInt 5)]] eq_refl eq_refl).
Defined.

Lemma extract_content_assistant_blocks_witness :
  exists text, (extract_content Samples.assistant_with_blocks).1 = Ok (Some text)
    /\ strip text = text.
Proof.
  exact (extract_content_assistant_blocks Samples.assistant_with_blocks
           Samples.assistant_blocks eq_refl eq_refl).
Defined.

Lemma extract_content_other_records_witness :
  (exists r, (extract_content [("type", JStr "tool_use"); ("name", JStr "Read")]).1 = Ok r
     /\ (r = None <-> true = false))
  /\ exists r, (extract_content [("type", JStr "summary")]).1 = Ok r
       /\ (r = None <-> false = false).
Proof.
  split.
  - exact (extract_content_other_records
             [("type", JStr "tool_use"); ("name", JStr "Read")] eq_refl eq_refl).
  - exact (extract_content_other_records [("type", JStr "summary")] eq_refl eq_refl).
Defined.

Lemma generate_title_shape_witness :
  0 < String.length Samples.request <= 50
  /\ (Samples.request = "Conversation " +:+ substring 0 8 "0123456789abcdef"
      \/ no_line_feed Samples.request = true).
Proof.
  apply (generate_title_shape
           [Samples.user_message "hi"; Samples.user_message Samples.request]
           "0123456789abcdef").
  reflexivity.
Defined.

Lemma extract_tags_from_keywords_witness :
  exists keyword,
    In (keyword, "bug-fix") keywords /\ contains keyword "please fix it " = true.
Proof.
  apply (extract_tags_from_keywords [Samples.user_message "Please FIX it"]
           "please fix it " [[("role", JStr "user"); ("content", JStr "Please FIX it")]]
           ["bug-fix"]).
  - reflexivity.
  - reflexivity.
  - by left.
Defined.

Lemma extract_tags_case_insensitive_witness :
  (extract_tags [Samples.user_message "FIX the BUG"]).1
  = (extract_tags [Samples.user_message "fix the bug"]).1.
Proof.
  apply (extract_tags_case_insensitive _ _ [Some "FIX the BUG"] [Some "fix the bug"]).
  - by repeat constructor.
  - by repeat constructor.
  - reflexivity.
Defined.

Lemma to_markdown_skips_other_roles_witness :
  (to_markdown "2026-01-02"
     [Samples.user_message "hello there"; Samples.system_message] Samples.md_first).1
  = (to_markdown "2026-01-02" [Samples.user_message "hello there"] Samples.md_first).1.
Proof.
  apply (to_markdown_skips_other_roles "2026-01-02"
           [Samples.user_message "hello there"; Samples.system_message]
           Samples.md_first 2).
  reflexivity.
Defined.

(** Two user messages and an answer: one section for the user, with both
    contents, then a rule, then one section for the answer. *)
Lemma to_markdown_sections_witness :
  exists head,
    (to_markdown "2026-01-02" [] Samples.md_first).1 = Ok head
    /\ (to_markdown "2026-01-02"
          [Samples.user_message "hello"; Samples.user_message "are you there";
           Samples.assistant_message "yes"] Samples.md_first).1
       = Ok (head +:+ nl
             +:+ join nl [ "## User" +:+ nl +:+ nl +:+ "hello" +:+ nl +:+ "are you there";
                           ""; "---"; "";
                           "## Claude" +:+ nl +:+ nl +:+ "yes" ]).
Proof.
  destruct (to_markdown "2026-01-02" [] Samples.md_first).1 as [head|e] eqn:Hhead;
    [|discriminate].
  exists head. split; [reflexivity|].
  apply (to_markdown_sections "2026-01-02"
           [Samples.user_message "hello"; Samples.user_message "are you there";
            Samples.assistant_message "yes"]
           Samples.md_first 2
           [("## User", "hello"); ("## User", "are you there"); ("## Claude", "yes")]
           head).
  - reflexivity.
  - discriminate.
  - repeat constructor.
  - exact Hhead.
Defined.

Lemma index_entry_complete_line_witness :
  complete_line (index_entry "2026-01-02" "s1" Samples.md_first) = true.
Proof.
  apply (index_entry_complete_line "2026-01-02" "s1" Samples.md_first);
    reflexivity.
Defined.

Lemma update_index_without_marker_witness :
  update_index Samples.plain_index "2026-01-02" (Path "out") "s1" Samples.md_first
  = <["out/index.md" := "My notes" +:+ nl +:+ Samples.entry_first]> Samples.plain_index.
Proof.
  apply (update_index_without_marker Samples.plain_index "2026-01-02" (Path "out")
           "s1" ("My notes" +:+ nl) Samples.md_first).
  - vm_compute. reflexivity.
  - reflexivity.
Defined.

Lemma update_index_newest_first_witness :
  update_index_all ∅ "2026-01-02" (Path "out")
    [("s1", Samples.md_first); ("s2", Samples.md_second)] !! "out/index.md"
  = Some (writelines (index_header ++ [Samples.entry_second; Samples.entry_first])).
Proof.
  apply (update_index_newest_first ∅ "2026-01-02" (Path "out")
           [("s1", Samples.md_first); ("s2", Samples.md_second)]).
  - reflexivity.
  - discriminate.
  - repeat constructor.
Defined.

(** A document saved below [out/], an output directory given with a
    final slash, next to an index that exists. *)
Lemma save_conversation_files_witness :
  let fs' := save_conversation Samples.plain_index "2026-01-02" "# Title" "out/" "s1"
               Samples.md_first in
  "out/2026/01-02/s1.md" <> "out/index.md"
  /\ fs' !! "out/2026/01-02/s1.md" = Some "# Title"
  /\ fs' !! "out/index.md" = Some ("My notes" +:+ nl +:+ Samples.entry_first)
  /\ forall path, path <> "out/2026/01-02/s1.md" -> path <> "out/index.md" ->
       fs' !! path = Samples.plain_index !! path.
Proof.
  apply (save_conversation_files Samples.plain_index "2026-01-02" "# Title" "out/" "s1"
           Samples.md_first).
  reflexivity.
Defined.

(** A hook run whose payload has no working directory returns 1, and a
    command-line run without [--output] ends in [argparse]. *)
Lemma main_failure_writes_nothing_witness :
  (main Samples.hook_run_without_cwd Samples.transcript_only).2
  = Samples.transcript_only
  /\ (main Samples.cli_run_without_output Samples.transcript_only).2
     = Samples.transcript_only.
Proof.
  split.
  - apply (main_failure_writes_nothing Samples.hook_run_without_cwd
             Samples.transcript_only).
    left. reflexivity.
  - apply (main_failure_writes_nothing Samples.cli_run_without_output
             Samples.transcript_only).
    right. reflexivity.
Defined.

Lemma main_skips_recorded_session_witness :
  main Samples.hook_run (Samples.exported_only "session-1")
  = (Return 0, Samples.exported_only "session-1").
Proof.
  apply (main_skips_recorded_session Samples.hook_run _
           {[ "session_id" := "session-1"; "transcript_path" := "t.jsonl";
              "cwd" := "/w" ]}
           ("session-1" +:+ nl)).
  - reflexivity.
  - reflexivity.
  - vm_compute. reflexivity.
  - vm_compute. reflexivity.
  - vm_compute. reflexivity.
  - vm_compute. tauto.
Defined.

Lemma main_exports_at_most_once_witness :
  main Samples.hook_run (main Samples.hook_run (Samples.exported_only "session-20")).2
  = (Return 0, (main Samples.hook_run (Samples.exported_only "session-20")).2).
Proof.
  apply (main_exports_at_most_once Samples.hook_run
           (Samples.exported_only "session-20") _
           {[ "session_id" := "session-1"; "transcript_path" := "t.jsonl";
              "cwd" := "/w" ]}).
  - reflexivity.
  - reflexivity.
  - vm_compute. reflexivity.
  - vm_compute. reflexivity.
Defined.


